(** * Slide narration server: the two analysis endpoints of [server.js]

    A shallow embedding of the request handlers of [src/server.js]
    ([POST /api/analyze-slide] and [POST /api/analyze-slides-batch]) together
    with the fragment of JavaScript they rely on: strings as sequences of
    UTF-16 code units, JSON values with truthiness and string conversion,
    exceptions, the mutable variables [browser] and [narrations], and the
    calls the handlers make to the headless browser and to the text
    generator, recorded as a trace of events. *)

From Stdlib Require Import List NArith ZArith Bool Lia.
From Stdlib Require Decimal.
From Stdlib Require DecimalNat.
From Stdlib Require Import Sorted.
From Stdlib Require Import Floats.SpecFloat.
Import ListNotations.

Set Implicit Arguments.
Set Warnings "-register-all".

(** ** JavaScript strings and values *)

Module JS.

(** A string is its sequence of UTF-16 code units: [s.length] is [length s]. *)
Definition jsstring := list N.

Definition jsstring_eqb (s t : jsstring) : bool :=
  (length s =? length t)%nat && forallb (fun p => N.eqb (fst p) (snd p)) (combine s t).

(** WhiteSpace and LineTerminator code points, the ones [String.prototype.trim]
    strips: TAB, LF, VT, FF, CR, SP, NBSP, U+1680, U+2000..U+200A, U+2028,
    U+2029, U+202F, U+205F, U+3000 and U+FEFF. *)
Definition is_white_space (c : N) : bool :=
  ((9 <=? c) && (c <=? 13) || (c =? 32) || (c =? 160) || (c =? 5760)
   || (8192 <=? c) && (c <=? 8202) || (c =? 8232) || (c =? 8233)
   || (c =? 8239) || (c =? 8287) || (c =? 12288) || (c =? 65279))%N.

Fixpoint trimStart (s : jsstring) : jsstring :=
  match s with
  | c :: s' => if is_white_space c then trimStart s' else s
  | [] => []
  end.

Definition trimEnd (s : jsstring) : jsstring := rev (trimStart (rev s)).

(** [s.trim()] *)
Definition trim (s : jsstring) : jsstring := trimEnd (trimStart s).

(** [s.substring(0, n)] for a non-negative integer [n]. *)
Definition substring0 (n : nat) (s : jsstring) : jsstring := firstn n s.

Definition digit_unit (d : N) : N := (48 + d)%N.

Fixpoint uint_units (u : Decimal.uint) : jsstring :=
  match u with
  | Decimal.Nil => []
  | Decimal.D0 u' => digit_unit 0 :: uint_units u'
  | Decimal.D1 u' => digit_unit 1 :: uint_units u'
  | Decimal.D2 u' => digit_unit 2 :: uint_units u'
  | Decimal.D3 u' => digit_unit 3 :: uint_units u'
  | Decimal.D4 u' => digit_unit 4 :: uint_units u'
  | Decimal.D5 u' => digit_unit 5 :: uint_units u'
  | Decimal.D6 u' => digit_unit 6 :: uint_units u'
  | Decimal.D7 u' => digit_unit 7 :: uint_units u'
  | Decimal.D8 u' => digit_unit 8 :: uint_units u'
  | Decimal.D9 u' => digit_unit 9 :: uint_units u'
  end.

(** String conversion of a non-negative integer, as a template literal
    performs it on [i + 1]: its decimal digits. *)
Definition string_of_nat (n : nat) : jsstring := uint_units (Nat.to_uint n).

(** The values [JSON.parse] can put in a field of the request body, and
    [undefined] for a field the body does not have.  Numbers are IEEE 754
    doubles. *)
Inductive JsValue : Type :=
| JUndefined
| JNull
| JBool (b : bool)
| JNumber (x : spec_float)
| JString (s : jsstring)
| JArray (items : list JsValue)
| JObject (members : list (jsstring * JsValue)).

(** ToBoolean: [undefined], [null], [false], [+0], [-0], [NaN] and the empty
    string are falsy, everything else (every array and object) is truthy. *)
Definition truthy (v : JsValue) : bool :=
  match v with
  | JUndefined | JNull => false
  | JBool b => b
  | JNumber (S754_zero _) | JNumber S754_nan => false
  | JNumber _ => true
  | JString [] => false
  | JString (_ :: _) => true
  | JArray _ | JObject _ => true
  end.

(** [a || b] *)
Definition or_else (a b : JsValue) : JsValue := if truthy a then a else b.

(** "toString" *)
Definition key_toString : jsstring :=
  [ 116; 111; 83; 116; 114; 105; 110; 103 ]%N.

(** Whether ToString, which a template literal applies to each substitution,
    throws a TypeError on the value.  Primitives never throw.  An object goes
    through OrdinaryToPrimitive with hint string: an own member named
    "toString" of an object built by [JSON.parse] is never callable, so the
    inherited [Object.prototype.toString] is shadowed and skipped; "valueOf"
    (own: not callable; inherited: returns the object itself) yields no
    primitive either, and the conversion throws.  Without such a member
    [Object.prototype.toString] answers.  An array is joined, converting each
    element that is neither [null] nor [undefined] in turn. *)
Fixpoint to_string_throws (v : JsValue) : bool :=
  match v with
  | JArray items => existsb to_string_throws items
  | JObject members =>
      existsb (fun member => jsstring_eqb (fst member) key_toString) members
  | _ => false
  end.

End JS.

Import JS.

(** ** String literals of the handlers, as UTF-16 code units *)

(** The batch prompt, lines 195-213, cut at its three substitutions.  Up to
    the slide number: *)
Definition prompt_head : jsstring :=
  [ 10; 12354; 12394; 12383; 12399; 12503; 12525; 12398; 12503; 12524; 12476;
    12531; 12486; 12540; 12479; 12540; 12391; 12377; 12290; 20197; 19979;
    12398; 12473; 12521; 12452; 12489; 20869; 23481; 12363; 12425; 12289;
    33258; 28982; 12391; 39749; 21147; 30340; 12394; 12490; 12524; 12540;
    12471; 12519; 12531; 21407; 31295; 12434; 26085; 26412; 35486; 12391;
    20316; 25104; 12375; 12390; 12367; 12384; 12373; 12356; 12290; 10; 10;
    12304; 12473; 12521; 12452; 12489; 30058; 21495; 12305; 10 ]%N.

(** from the counter word after the slide number to the dash that opens the
    position-dependent requirement (line 206): *)
Definition prompt_requirements : jsstring :=
  [ 26522; 30446; 10; 10; 12304; 35201; 20214; 12305; 10; 45; 32; 49; 53; 48;
    45; 50; 53; 48; 25991; 23383; 31243; 24230; 10; 45; 32; 12499; 12472;
    12493; 12473; 12459; 12472; 12517; 12450; 12523; 12394; 21475; 35519; 10;
    45; 32; 25964; 20307; 65288; 12391; 12377; 12539; 12414; 12377; 35519;
    65289; 10; 45; 32; 21477; 35501; 28857; 12434; 36969; 20999; 12395; 20837;
    12428; 12427; 10; 45; 32 ]%N.

(** the header of the slide text: *)
Definition prompt_content_header : jsstring :=
  [ 10; 10; 12304; 12473; 12521; 12452; 12489; 20869; 23481; 12305; 10 ]%N.

(** and the closing output-format paragraph. *)
Definition prompt_tail : jsstring :=
  [ 10; 10; 12304; 20986; 21147; 24418; 24335; 12305; 10; 12490; 12524; 12540;
    12471; 12519; 12531; 21407; 31295; 12398; 12415; 12434; 20986; 21147;
    12375; 12390; 12367; 12384; 12373; 12356; 12290; 21069; 32622; 12365;
    12420; 35500; 26126; 12399; 19981; 35201; 12391; 12377; 12290; 10 ]%N.

(** The single-slide prompt, lines 77-93, up to the page text: *)
Definition single_prompt_head : jsstring :=
  [ 10; 12354; 12394; 12383; 12399; 12503; 12525; 12398; 12503; 12524; 12476;
    12531; 12486; 12540; 12479; 12540; 12391; 12377; 12290; 20197; 19979;
    12398; 12473; 12521; 12452; 12489; 20869; 23481; 12363; 12425; 12289;
    33258; 28982; 12391; 39749; 21147; 30340; 12394; 12490; 12524; 12540;
    12471; 12519; 12531; 21407; 31295; 12434; 26085; 26412; 35486; 12391;
    20316; 25104; 12375; 12390; 12367; 12384; 12373; 12356; 12290; 10; 10;
    12304; 35201; 20214; 12305; 10; 45; 32; 49; 53; 48; 45; 51; 48; 48; 25991;
    23383; 31243; 24230; 10; 45; 32; 12499; 12472; 12493; 12473; 12459; 12472;
    12517; 12450; 12523; 12394; 21475; 35519; 10; 45; 32; 25964; 20307; 65288;
    12391; 12377; 12539; 12414; 12377; 35519; 65289; 10; 45; 32; 21477; 35501;
    28857; 12434; 36969; 20999; 12395; 20837; 12428; 12427; 10; 45; 32; 23554;
    38272; 29992; 35486; 12399; 20998; 12363; 12426; 12420; 12377; 12367;
    35500; 26126; 10; 45; 32; 21069; 32622; 12365; 12420; 25384; 25334; 12399;
    19981; 35201; 65288; 20869; 23481; 12395; 30452; 25509; 20837; 12427;
    65289; 10; 10; 12304; 12473; 12521; 12452; 12489; 20869; 23481; 12305; 10 ]%N.

(** and after it. *)
Definition single_prompt_tail : jsstring :=
  [ 10; 10; 12304; 20986; 21147; 24418; 24335; 12305; 10; 12490; 12524; 12540;
    12471; 12519; 12531; 21407; 31295; 12398; 12415; 12434; 20986; 21147;
    12375; 12390; 12367; 12384; 12373; 12356; 12290; 21069; 32622; 12365;
    12420; 35500; 26126; 12399; 19981; 35201; 12391; 12377; 12290; 10 ]%N.

(** Line 206, the requirement for the opening slide, '導入として簡潔に始める': *)
Definition role_first : jsstring :=
  [ 23566; 20837; 12392; 12375; 12390; 31777; 28500; 12395; 22987; 12417;
    12427 ]%N.

(** for the closing slide, '締めくくりの言葉を含める': *)
Definition role_last : jsstring :=
  [ 32224; 12417; 12367; 12367; 12426; 12398; 35328; 33865; 12434; 21547;
    12417; 12427 ]%N.

(** and for any other slide, '内容を分かりやすく説明する'. *)
Definition role_middle : jsstring :=
  [ 20869; 23481; 12434; 20998; 12363; 12426; 12420; 12377; 12367; 35500;
    26126; 12377; 12427 ]%N.

(** Line 226, the placeholder narration: 'スライド' before the ordinal *)
Definition fallback_head : jsstring :=
  [ 12473; 12521; 12452; 12489 ]%N.

(** and 'の内容を説明します。' after it. *)
Definition fallback_tail : jsstring :=
  [ 12398; 20869; 23481; 12434; 35500; 26126; 12375; 12414; 12377; 12290 ]%N.

(** 'URLが必要です' (lines 34 and 126) *)
Definition msg_url_required : jsstring :=
  [ 85; 82; 76; 12364; 24517; 35201; 12391; 12377 ]%N.

(** 'スライド解析に失敗しました' (line 115) *)
Definition msg_single_failed : jsstring :=
  [ 12473; 12521; 12452; 12489; 35299; 26512; 12395; 22833; 25943; 12375;
    12414; 12375; 12383 ]%N.

(** 'バッチ解析に失敗しました' (line 247) *)
Definition msg_batch_failed : jsstring :=
  [ 12496; 12483; 12481; 35299; 26512; 12395; 22833; 25943; 12375; 12414;
    12375; 12383 ]%N.

(** '不明' (line 132) *)
Definition unknown_count : jsstring :=
  [ 19981; 26126 ]%N.

(** ** Exceptions, events and the handler monad *)

(** A thrown error, as far as the handlers look at it: [error.message]. *)
Record Exn : Type := { message : jsstring }.

Inductive Result (A : Type) : Type :=
| Ok (a : A)
| Throw (e : Exn).

Arguments Ok {A} a.
Arguments Throw {A} e.

Definition is_ok {A : Type} (r : Result A) : bool :=
  match r with Ok _ => true | Throw _ => false end.

(** The handle [puppeteer.launch] resolves to. *)
Definition Browser := nat.

(** The lines written with [console.log] and [console.error], by source line,
    with the values substituted into them. *)
Inductive LogLine : Type :=
| LogSingleStart (url : JsValue)
| LogTextDone (characters : nat)
| LogNarrationDone (characters : nat)
| LogSingleError (msg : jsstring)
| LogBatchStart (url estimate : JsValue)
| LogDetected (count : nat)
| LogSlideDone (ordinal total characters : nat)
| LogSlideFailed (ordinal : nat) (msg : jsstring)
| LogBatchDone (count : nat)
| LogBatchError (msg : jsstring).

(** What a handler does to the outside world, in order. *)
Inductive Event : Type :=
| EvLog (line : LogLine)
| EvLaunch (opened : option Browser)
| EvNewPage (ok : bool)
| EvGoto (url : JsValue) (ok : bool)
| EvDelay (ms : nat)
| EvEvaluate (ok : bool)
| EvClose (b : Browser) (ok : bool)
| EvGenerate (call : nat) (prompt : jsstring) (ok : bool).

(** The two variables a handler assigns to: [let browser = null] and, in the
    batch handler, [const narrations = []] with its [push]. *)
Record State : Type := { browser : option Browser; narrations : list jsstring }.

Definition initial : State := {| browser := None; narrations := [] |}.

(** A computation yields the events it caused, the variables as it left them,
    and a value or a thrown error.  Assignments made before a throw stay. *)
Definition M (A : Type) : Type := State -> list Event * State * Result A.

Definition ret {A : Type} (a : A) : M A := fun st => ([], st, Ok a).

Definition throw {A : Type} (e : Exn) : M A := fun st => ([], st, Throw e).

Definition bind {A B : Type} (m : M A) (f : A -> M B) : M B :=
  fun st =>
    match m st with
    | (tr, st', Ok a) => let '(tr', st'', r) := f a st' in (tr ++ tr', st'', r)
    | (tr, st', Throw e) => (tr, st', Throw e)
    end.

(** [try { m } catch (error) { handler error }] *)
Definition try_catch {A : Type} (m : M A) (handler : Exn -> M A) : M A :=
  fun st =>
    match m st with
    | (tr, st', Ok a) => (tr, st', Ok a)
    | (tr, st', Throw e) =>
        let '(tr', st'', r) := handler e st' in (tr ++ tr', st'', r)
    end.

Declare Scope handler_scope.
Delimit Scope handler_scope with handler.
Notation "x <- m ;; k" := (bind m (fun x => k))
  (at level 100, m at next level, right associativity) : handler_scope.
Notation "m ;; k" := (bind m (fun _ => k))
  (at level 100, right associativity) : handler_scope.
Open Scope handler_scope.

Definition emit (ev : Event) : M unit := fun st => ([ev], st, Ok tt).

Definition log (line : LogLine) : M unit := emit (EvLog line).

(** [await new Promise(resolve => setTimeout(resolve, ms))] *)
Definition delay (ms : nat) : M unit := emit (EvDelay ms).

Definition get_browser : M (option Browser) := fun st => ([], st, Ok (browser st)).

Definition set_browser (b : option Browser) : M unit :=
  fun st => ([], {| browser := b; narrations := narrations st |}, Ok tt).

Definition get_narrations : M (list jsstring) :=
  fun st => ([], st, Ok (narrations st)).

(** [narrations.push(narration)] *)
Definition push (narration : jsstring) : M unit :=
  fun st =>
    ([], {| browser := browser st; narrations := narrations st ++ [narration] |}, Ok tt).

(** An awaited call to a collaborator: the event, then its value or error. *)
Definition await {A : Type} (ev : bool -> Event) (r : Result A) : M A :=
  fun st => ([ev (is_ok r)], st, r).

(** ** The rendered document *)

(** The patterns of [slideSelectors] (lines 147-153): ['section'],
    ['[class*=slide]'], ['[class*=page]'], ['article'], ['.swiper-slide']. *)
Inductive Selector : Type :=
| SelSection
| SelClassSlide
| SelClassPage
| SelArticle
| SelSwiperSlide.

Definition slideSelectors : list Selector :=
  [SelSection; SelClassSlide; SelClassPage; SelArticle; SelSwiperSlide].

(** An element as the page script reads it.  [innerText] is a property of
    HTML elements only: on any other element (one of an inline SVG, say) it
    is [undefined], here [None]. *)
Record Element : Type := { innerText : option jsstring }.

(** [document.body] when it is an element: its text, and its text once the
    single-slide script has removed the script, style, nav, header and footer
    elements (lines 55-60). *)
Record DocumentBody : Type := {
  body_innerText : jsstring;
  body_innerText_cleaned : jsstring
}.

(** A loaded document: what [document.querySelectorAll] answers, in document
    order, and [document.body], which is [null] (here [None]) in a document
    that is not HTML and in one whose body a script has removed. *)
Record Page : Type := {
  querySelectorAll : Selector -> list Element;
  body : option DocumentBody
}.

Record Slide : Type := { text : jsstring; index : nat }.

(** ** The collaborators *)

(** The TypeErrors the language itself raises in these handlers; their
    message texts are the engine's. *)
Inductive TypeErrorKind : Type :=
| NotPrimitive
| TrimOfUndefined
| TextOfUndefined
| CloseOfNull
| InnerTextOfNull.

(** The two places that call [browser.close()]: after extraction (lines 63 and
    176) and in the [catch] block (lines 111 and 243). *)
Inductive CloseSite : Type :=
| AfterExtraction
| InCatch.

(** One request's world: how each awaited call turns out.  [evaluate] is the
    document the page script runs against, or the error when the script never
    got to run; [generateContent i prompt] is [result.response.text()] of the
    [i]-th call, or the error either of the two raised. *)
Record Env : Type := {
  launch : Result Browser;
  newPage : Result unit;
  goto : JsValue -> Result unit;
  evaluate : Result Page;
  close : CloseSite -> Result unit;
  generateContent : nat -> jsstring -> Result jsstring;
  type_error : TypeErrorKind -> Exn
}.

(** ** The slide segmenter: the page script of the batch handler (lines 145-174) *)

(** The [for (const selector of slideSelectors)] loop with its [break]. *)
Fixpoint select_elements (page : Page) (selectors : list Selector)
    (slideElements : list Element) : list Element :=
  match selectors with
  | [] => slideElements
  | selector :: rest =>
      let elements := querySelectorAll page selector in
      if (0 <? length elements)%nat then elements
      else select_elements page rest slideElements
  end.

(** What the [map] callback builds: [{ text: el.innerText, index: idx }]. *)
Record Candidate : Type := {
  candidate_text : option jsstring;
  candidate_index : nat
}.

Fixpoint map_elements (elements : list Element) (idx : nat) : list Candidate :=
  match elements with
  | [] => []
  | el :: rest =>
      {| candidate_text := innerText el; candidate_index := idx |}
        :: map_elements rest (S idx)
  end.

(** [.filter(slide => slide.text.trim().length > 20)]: the predicate is run on
    every candidate in order, and [undefined.trim()] throws. *)
Fixpoint filter_candidates (trim_of_undefined : Exn)
    (candidates : list Candidate) : Result (list Slide) :=
  match candidates with
  | [] => Ok []
  | slide :: rest =>
      match candidate_text slide with
      | None => Throw trim_of_undefined
      | Some t =>
          match filter_candidates trim_of_undefined rest with
          | Throw e => Throw e
          | Ok kept =>
              if (20 <? length (trim t))%nat
              then Ok ({| text := t; index := candidate_index slide |} :: kept)
              else Ok kept
          end
      end
  end.

Definition segment (env : Env) (page : Page) : Result (list Slide) :=
  let slideElements := select_elements page slideSelectors [] in
  if (length slideElements =? 0)%nat
  then match body page with
       | Some b => Ok [ {| text := body_innerText b; index := 0 |} ]
       | None => Throw (type_error env InnerTextOfNull)
       end
  else filter_candidates (type_error env TrimOfUndefined)
         (map_elements slideElements 0).

(** ** Prompts *)

Inductive PositionRole : Type :=
| First
| Last
| Middle.

(** The nested conditional of line 206, on the loop counter [i] and
    [slides.length]. *)
Definition position_role (i len : nat) : PositionRole :=
  if (i =? 0)%nat then First
  else if (Z.of_nat i =? Z.of_nat len - 1)%Z then Last
  else Middle.

Definition role_requirement (r : PositionRole) : jsstring :=
  match r with
  | First => role_first
  | Last => role_last
  | Middle => role_middle
  end.

(** The batch prompt for the slide of ordinal [ordinal] (that is [i + 1]). *)
Definition prompt_for (r : PositionRole) (ordinal : nat) (slideText : jsstring)
    : jsstring :=
  prompt_head ++ string_of_nat ordinal ++ prompt_requirements
    ++ role_requirement r ++ prompt_content_header
    ++ substring0 1500 slideText ++ prompt_tail.

Definition batch_prompt (i len : nat) (slideText : jsstring) : jsstring :=
  prompt_for (position_role i len) (i + 1) slideText.

Definition single_prompt (textContent : jsstring) : jsstring :=
  single_prompt_head ++ substring0 2000 textContent ++ single_prompt_tail.

(** Line 226. *)
Definition fallback_narration (ordinal : nat) : jsstring :=
  fallback_head ++ string_of_nat ordinal ++ fallback_tail.

(** ** Responses *)

Inductive ResponseBody : Type :=
| SingleOk (narration : jsstring) (textLength narrationLength : nat)
| BatchOk (narrations : list jsstring) (slideCount generatedCount : nat)
| ErrorBody (error : jsstring) (message : option jsstring).

Record Response : Type := { status : nat; payload : ResponseBody }.

(** A handler either sends a response or, when its [catch] block throws in
    turn, ends with its promise rejected and nothing sent. *)
Inductive Outcome : Type :=
| Responded (r : Response)
| Rejected (e : Exn).

(** [req.body], destructured: a field the body lacks is [undefined]. *)
Record Body : Type := { url : JsValue; slideCount : JsValue }.

Definition finish (run : list Event * State * Result Response)
    : list Event * Outcome :=
  match run with
  | (tr, _, Ok r) => (tr, Responded r)
  | (tr, _, Throw e) => (tr, Rejected e)
  end.

(** ** Steps shared by the two handlers *)

(** A [console.log] of a template literal: the substitutions are converted to
    strings first, left to right, and the line is written if none throws. *)
Definition log_template (env : Env) (substitutions : list JsValue)
    (line : LogLine) : M unit :=
  if existsb to_string_throws substitutions
  then throw (type_error env NotPrimitive)
  else log line.

(** [browser = await puppeteer.launch(...)] *)
Definition launch_browser (env : Env) : M unit :=
  b <- await (fun _ => EvLaunch (match launch env with
                                  | Ok b => Some b
                                  | Throw _ => None
                                  end)) (launch env) ;;
  set_browser (Some b).

(** [await browser.close()] on the current value of [browser]. *)
Definition close_browser (env : Env) (site : CloseSite) : M unit :=
  current <- get_browser ;;
  match current with
  | Some b => await (EvClose b) (close env site)
  | None => throw (type_error env CloseOfNull)
  end.

(** [if (browser) { await browser.close(); }] *)
Definition close_if_open (env : Env) : M unit :=
  current <- get_browser ;;
  match current with
  | Some _ => close_browser env InCatch
  | None => ret tt
  end.

Definition respond (code : nat) (b : ResponseBody) : M Response :=
  ret {| status := code; payload := b |}.

Definition bad_request : Response :=
  {| status := 400; payload := ErrorBody msg_url_required None |}.

(** ** [POST /api/analyze-slide] (lines 30-119) *)

(** [page.evaluate] of the cleaning script (lines 53-61): it fails when the
    script cannot be run, and the script itself throws on
    [document.body.innerText] when [document.body] is [null]. *)
Definition page_text (env : Env) : Result jsstring :=
  match evaluate env with
  | Ok page =>
      match body page with
      | Some b => Ok (body_innerText_cleaned b)
      | None => Throw (type_error env InnerTextOfNull)
      end
  | Throw e => Throw e
  end.

Definition analyze_slide_try (env : Env) (req : Body) : M Response :=
  log_template env [url req] (LogSingleStart (url req)) ;;
  launch_browser env ;;
  await EvNewPage (newPage env) ;;
  await (EvGoto (url req)) (goto env (url req)) ;;
  delay 2000 ;;
  textContent <- await EvEvaluate (page_text env) ;;
  close_browser env AfterExtraction ;;
  set_browser None ;;
  log (LogTextDone (length textContent)) ;;
  let prompt := single_prompt textContent in
  result <- await (EvGenerate 0 prompt) (generateContent env 0 prompt) ;;
  let narration := trim result in
  log (LogNarrationDone (length narration)) ;;
  respond 200 (SingleOk narration (length textContent) (length narration)).

Definition analyze_slide_catch (env : Env) (error : Exn) : M Response :=
  log (LogSingleError (message error)) ;;
  close_if_open env ;;
  respond 500 (ErrorBody msg_single_failed (Some (message error))).

Definition analyze_slide (env : Env) (req : Body) : list Event * Outcome :=
  if negb (truthy (url req)) then ([], Responded bad_request)
  else finish (try_catch (analyze_slide_try env req) (analyze_slide_catch env) initial).

(** ** [POST /api/analyze-slides-batch] (lines 122-251) *)

(** The generation loop, lines 192-228: [remaining] counts the iterations
    left, [Math.min(slides.length, 50) - i]. *)
Fixpoint generation_loop (env : Env) (slides : list Slide) (remaining i : nat)
    : M unit :=
  match remaining with
  | O => ret tt
  | S remaining' =>
      slide <- match nth_error slides i with
               | Some slide => ret slide
               | None => throw (type_error env TextOfUndefined)
               end ;;
      let prompt := batch_prompt i (length slides) (text slide) in
      try_catch
        (result <- await (EvGenerate i prompt) (generateContent env i prompt) ;;
         let narration := trim result in
         push narration ;;
         log (LogSlideDone (i + 1) (length slides) (length narration)) ;;
         delay 500)
        (fun error =>
           log (LogSlideFailed (i + 1) (message error)) ;;
           push (fallback_narration (i + 1))) ;;
      generation_loop env slides remaining' (S i)
  end.

(** [page.evaluate] of the segmenting script: it fails when the script cannot
    be run and when the script itself throws. *)
Definition extraction (env : Env) : Result (list Slide) :=
  match evaluate env with
  | Ok page => segment env page
  | Throw e => Throw e
  end.

(** The estimate written to the log, [slideCount || '不明']. *)
Definition estimate (req : Body) : JsValue :=
  or_else (slideCount req) (JString unknown_count).

(** Lines 134-179: load the page, segment it and close the browser. *)
Definition load_and_segment (env : Env) (url : JsValue) : M (list Slide) :=
  launch_browser env ;;
  await EvNewPage (newPage env) ;;
  await (EvGoto url) (goto env url) ;;
  delay 3000 ;;
  slides <- await EvEvaluate (extraction env) ;;
  close_browser env AfterExtraction ;;
  set_browser None ;;
  log (LogDetected (length slides)) ;;
  ret slides.

(** Lines 132-179: write the start line, then render. *)
Definition render_slides (env : Env) (req : Body) : M (list Slide) :=
  log_template env [url req; estimate req]
    (LogBatchStart (url req) (estimate req)) ;;
  load_and_segment env (url req).

(** Lines 190-237: narrate the slides and answer. *)
Definition narrate_slides (env : Env) (slides : list Slide) : M Response :=
  generation_loop env slides (Nat.min (length slides) 50) 0 ;;
  narrations <- get_narrations ;;
  log (LogBatchDone (length narrations)) ;;
  respond 200 (BatchOk narrations (length slides) (length narrations)).

Definition analyze_slides_batch_try (env : Env) (req : Body) : M Response :=
  slides <- render_slides env req ;;
  narrate_slides env slides.

Definition analyze_slides_batch_catch (env : Env) (error : Exn) : M Response :=
  log (LogBatchError (message error)) ;;
  close_if_open env ;;
  respond 500 (ErrorBody msg_batch_failed (Some (message error))).

Definition analyze_slides_batch (env : Env) (req : Body) : list Event * Outcome :=
  if negb (truthy (url req)) then ([], Responded bad_request)
  else finish (try_catch (analyze_slides_batch_try env req)
                 (analyze_slides_batch_catch env) initial).

(** ** What one run of the generation loop leaves behind *)

(** The narration stored for the slide at loop counter [i]. *)
Definition slide_narration (env : Env) (len i : nat) (slide : Slide) : jsstring :=
  match generateContent env i (batch_prompt i len (text slide)) with
  | Ok result => trim result
  | Throw _ => fallback_narration (i + 1)
  end.

(** The events of the iteration at loop counter [i]. *)
Definition iteration_events (env : Env) (len i : nat) (slide : Slide)
    : list Event :=
  let prompt := batch_prompt i len (text slide) in
  match generateContent env i prompt with
  | Ok result =>
      [ EvGenerate i prompt true;
        EvLog (LogSlideDone (i + 1) len (length (trim result)));
        EvDelay 500 ]
  | Throw error =>
      [ EvGenerate i prompt false;
        EvLog (LogSlideFailed (i + 1) (message error)) ]
  end.

Fixpoint narrations_from (env : Env) (len i : nat) (slides : list Slide)
    : list jsstring :=
  match slides with
  | [] => []
  | slide :: rest =>
      slide_narration env len i slide :: narrations_from env len (S i) rest
  end.

Fixpoint events_from (env : Env) (len i : nat) (slides : list Slide)
    : list Event :=
  match slides with
  | [] => []
  | slide :: rest =>
      iteration_events env len i slide ++ events_from env len (S i) rest
  end.

(** The calls made to the generator, in order: loop counter and prompt. *)
Fixpoint generate_calls (tr : list Event) : list (nat * jsstring) :=
  match tr with
  | [] => []
  | EvGenerate i prompt _ :: tr' => (i, prompt) :: generate_calls tr'
  | _ :: tr' => generate_calls tr'
  end.

(** ** Runs of the batch handler that reach the generation loop *)

(** Everything before the loop goes through: the url is truthy, the start line
    can be written, and launch, newPage, goto and close succeed. *)
Definition rendering_succeeds (env : Env) (req : Body) : bool :=
  truthy (url req)
  && negb (existsb to_string_throws [url req; estimate req])
  && is_ok (launch env) && is_ok (newPage env) && is_ok (goto env (url req))
  && is_ok (close env AfterExtraction).

Definition opened (env : Env) : option Browser :=
  match launch env with Ok b => Some b | Throw _ => None end.

Definition render_events (env : Env) (req : Body) (slides : list Slide)
    : list Event :=
  match opened env with
  | Some b =>
      [ EvLog (LogBatchStart (url req) (estimate req));
        EvLaunch (Some b); EvNewPage true; EvGoto (url req) true; EvDelay 3000;
        EvEvaluate true; EvClose b true; EvLog (LogDetected (length slides)) ]
  | None => []
  end.

(** The narrations of a batch over [slides]: one per slide among the first 50. *)
Definition batch_narrations (env : Env) (slides : list Slide) : list jsstring :=
  narrations_from env (length slides) 0 (firstn 50 slides).

Definition batch_events (env : Env) (slides : list Slide) : list Event :=
  events_from env (length slides) 0 (firstn 50 slides).

(** The same world with another generator. *)
Definition with_generator (env : Env)
    (g : nat -> jsstring -> Result jsstring) : Env :=
  {| launch := launch env;
     newPage := newPage env;
     goto := goto env;
     evaluate := evaluate env;
     close := close env;
     generateContent := g;
     type_error := type_error env |}.

(** The role of slide [i] as a reading relative to the capped list has it:
    last at the final index of the [processed] slides. *)
Definition capped_role (i processed : nat) : PositionRole :=
  if (i =? 0)%nat then First
  else if (i =? processed - 1)%nat then Last
  else Middle.

(** ** Sample worlds *)

(** A text of [n] letters a. *)
Definition letters (n : nat) : jsstring := repeat 97%N n.

Definition html_element (n : nat) : Element := {| innerText := Some (letters n) |}.

Definition svg_element : Element := {| innerText := None |}.

(** A page whose only match is an element of an inline SVG, carrying a class
    that contains "slide". *)
Definition svg_page : Page :=
  {| querySelectorAll := fun selector =>
       match selector with
       | SelClassSlide => [svg_element]
       | _ => []
       end;
     body := Some {| body_innerText := letters 40;
                     body_innerText_cleaned := letters 40 |} |}.

(** Nothing matches and there is no body: an SVG document, say. *)
Definition bodiless_page : Page :=
  {| querySelectorAll := fun _ => []; body := None |}.

(** Nothing matches and the body is empty. *)
Definition blank_page : Page :=
  {| querySelectorAll := fun _ => [];
     body := Some {| body_innerText := [];
                     body_innerText_cleaned := [] |} |}.

(** Three elements carry a class containing "slide", with 25, 15 and 100
    letters; one [article] is there as well. *)
Definition three_boxes_page : Page :=
  {| querySelectorAll := fun selector =>
       match selector with
       | SelClassSlide => [html_element 25; html_element 15; html_element 100]
       | SelArticle => [html_element 40]
       | _ => []
       end;
     body := Some {| body_innerText := letters 180;
                     body_innerText_cleaned := letters 180 |} |}.

(** A deck of [n] sections of 30 letters each. *)
Definition deck_page (n : nat) : Page :=
  {| querySelectorAll := fun selector =>
       match selector with
       | SelSection => repeat (html_element 30) n
       | _ => []
       end;
     body := Some {| body_innerText := letters (30 * n);
                     body_innerText_cleaned := letters (30 * n) |} |}.

Definition engine_errors (kind : TypeErrorKind) : Exn :=
  {| message := match kind with
                | NotPrimitive => [1]%N
                | TrimOfUndefined => [2]%N
                | TextOfUndefined => [3]%N
                | CloseOfNull => [4]%N
                | InnerTextOfNull => [10]%N
                end |}.

(** The generator answers call [i] with a space, the letter b [i + 1] times,
    and a line feed. *)
Definition echo_generator (i : nat) (prompt : jsstring) : Result jsstring :=
  Ok (32%N :: repeat 98%N (i + 1) ++ [10%N]).

(** The same, except that call [k] fails. *)
Definition failing_at (k : nat) (i : nat) (prompt : jsstring) : Result jsstring :=
  if (i =? k)%nat then Throw {| message := [5]%N |} else echo_generator i prompt.

(** Every collaborator does its job on [page]. *)
Definition calm_env (page : Page) : Env :=
  {| launch := Ok 1;
     newPage := Ok tt;
     goto := fun _ => Ok tt;
     evaluate := Ok page;
     close := fun _ => Ok tt;
     generateContent := echo_generator;
     type_error := engine_errors |}.

(** "http://deck" *)
Definition deck_url : JsValue :=
  JString [104; 116; 116; 112; 58; 47; 47; 100; 101; 99; 107]%N.

Definition plain_request : Body := {| url := deck_url; slideCount := JUndefined |}.

(** The result of the map and filter steps on the elements of one pattern
    alone. *)
Definition apply_pattern (env : Env) (page : Page) (selector : Selector)
    : Result (list Slide) :=
  filter_candidates (type_error env TrimOfUndefined)
    (map_elements (querySelectorAll page selector) 0).

(** The fallback slide of line 167. *)
Definition whole_page (b : DocumentBody) : Slide :=
  {| text := body_innerText b; index := 0 |}.

Definition long_enough (slide : Slide) : Prop := 20 < length (trim (text slide)).

(** The rhythm of a trace: the calls to the generator, with the loop counter
    and whether the call succeeded, and the timed waits between them. *)
Inductive Pace : Type :=
| Call (i : nat) (ok : bool)
| Pause (ms : nat).

Fixpoint pacing (tr : list Event) : list Pace :=
  match tr with
  | [] => []
  | EvGenerate i _ ok :: tr' => Call i ok :: pacing tr'
  | EvDelay ms :: tr' => Pause ms :: pacing tr'
  | _ :: tr' => pacing tr'
  end.

(** A trace without its log lines. *)
Fixpoint unlogged (tr : list Event) : list Event :=
  match tr with
  | [] => []
  | EvLog _ :: tr' => unlogged tr'
  | ev :: tr' => ev :: unlogged tr'
  end.

(** "slideCount": { "toString": 1 } *)
Definition odd_estimate : JsValue :=
  JObject [ (key_toString, JNumber (S754_finite false 1 0)) ].

Definition odd_request : Body := {| url := deck_url; slideCount := odd_estimate |}.

Definition counted_request : Body :=
  {| url := deck_url; slideCount := JNumber (S754_finite false 3 0) |}.

(** ** The life of the browser in a trace *)

Inductive BrowserEvent : Type :=
| Launched (b : Browser)
| CloseCalled (b : Browser) (ok : bool).

(** The launches that succeeded and the calls to [close], in order. *)
Fixpoint browser_events (tr : list Event) : list BrowserEvent :=
  match tr with
  | [] => []
  | EvLaunch (Some b) :: tr' => Launched b :: browser_events tr'
  | EvClose b ok :: tr' => CloseCalled b ok :: browser_events tr'
  | _ :: tr' => browser_events tr'
  end.

Inductive BrowserState : Type :=
| NeverOpened
| Open (b : Browser)
| Closed (b : Browser).

(** Follows the browser through its events.  A call to [close] is in order
    only on the browser that is open: not before a launch succeeded, not on
    another browser, not after a call to [close] that completed.  A call that
    throws leaves the browser open.  [None] when an event is out of order. *)
Fixpoint lifecycle (state : BrowserState) (evs : list BrowserEvent)
    : option BrowserState :=
  match evs with
  | [] => Some state
  | Launched b :: evs' =>
      match state with
      | NeverOpened => lifecycle (Open b) evs'
      | _ => None
      end
  | CloseCalled b ok :: evs' =>
      match state with
      | Open b' =>
          if (b =? b')%nat
          then lifecycle (if ok then Closed b else Open b) evs'
          else None
      | _ => None
      end
  end.

Definition is_launch (ev : BrowserEvent) : bool :=
  match ev with Launched _ => true | CloseCalled _ _ => false end.

Definition is_close (ev : BrowserEvent) : bool :=
  match ev with Launched _ => false | CloseCalled _ _ => true end.

Definition is_completed_close (ev : BrowserEvent) : bool :=
  match ev with Launched _ => false | CloseCalled _ ok => ok end.

Definition launched (evs : list BrowserEvent) : bool := existsb is_launch evs.

Definition close_calls (evs : list BrowserEvent) : nat :=
  length (filter is_close evs).

Definition completed_closes (evs : list BrowserEvent) : nat :=
  length (filter is_completed_close evs).

(** The path ends with a call to [close] that threw. *)
Definition ends_with_failed_close (evs : list BrowserEvent) : bool :=
  match rev evs with
  | CloseCalled _ false :: _ => true
  | _ => false
  end.

(** No call to [close] on the path threw. *)
Definition every_close_completes (evs : list BrowserEvent) : bool :=
  forallb (fun ev => match ev with
                     | CloseCalled _ ok => ok
                     | Launched _ => true
                     end) evs.

(** What the trace of a path has to satisfy for the browser to count as
    properly released: the calls to [close] are in order; at most one
    completes; none is made when no launch succeeded; a launched browser ends
    closed, by exactly one completed call, unless the path ends with a call
    to [close] that threw; and it is closed by exactly one call when no call
    to [close] on the path threw. *)
Definition released_properly (tr : list Event) : Prop :=
  let evs := browser_events tr in
  (exists final, lifecycle NeverOpened evs = Some final)
  /\ completed_closes evs <= 1
  /\ (launched evs = false -> close_calls evs = 0)
  /\ (launched evs = true ->
      ends_with_failed_close evs = false ->
      completed_closes evs = 1
      /\ exists b, lifecycle NeverOpened evs = Some (Closed b))
  /\ (launched evs = true ->
      every_close_completes evs = true ->
      close_calls evs = 1).


(** The world of [calm_env] where [close] throws at the given sites. *)
Definition closing_fails (page : Page) (after_extraction in_catch : bool) : Env :=
  {| launch := Ok 1;
     newPage := Ok tt;
     goto := fun _ => Ok tt;
     evaluate := Ok page;
     close := fun site =>
       match site with
       | AfterExtraction =>
           if after_extraction then Throw {| message := [6]%N |} else Ok tt
       | InCatch =>
           if in_catch then Throw {| message := [7]%N |} else Ok tt
       end;
     generateContent := echo_generator;
     type_error := engine_errors |}.

(** The world of [calm_env] where the page cannot be reached. *)
Definition unreachable_env : Env :=
  {| launch := Ok 1;
     newPage := Ok tt;
     goto := fun _ => Throw {| message := [8]%N |};
     evaluate := Ok blank_page;
     close := fun _ => Ok tt;
     generateContent := echo_generator;
     type_error := engine_errors |}.

(** ** The first step of a handler to fail *)

(** One awaited step: when it throws, the error and whether the variable
    [browser] still holds the browser at that point; otherwise the rest. *)
Definition step {A : Type} (r : Result A) (held : bool)
    (next : A -> option (Exn * bool)) : option (Exn * bool) :=
  match r with
  | Ok a => next a
  | Throw e => Some (e, held)
  end.

(** The steps of the batch handler's [try] block that can throw, in source
    order: the start line (132), launch (135), newPage (139), goto (141),
    evaluate (145), close (176).  The loop and the response cannot. *)
Definition batch_failure (env : Env) (req : Body) : option (Exn * bool) :=
  if existsb to_string_throws [url req; estimate req]
  then Some (type_error env NotPrimitive, false)
  else
    step (launch env) false (fun _ =>
    step (newPage env) true (fun _ =>
    step (goto env (url req)) true (fun _ =>
    step (extraction env) true (fun _ =>
    step (close env AfterExtraction) true (fun _ => None))))).

(** The same for the single-slide handler: the start line (40), launch (43),
    newPage (47), goto (49), evaluate (53), close (63), generateContent and
    [response.text()] (95-96), the last with [browser] back to [null]. *)
Definition single_failure (env : Env) (req : Body) : option (Exn * bool) :=
  if existsb to_string_throws [url req]
  then Some (type_error env NotPrimitive, false)
  else
    step (launch env) false (fun _ =>
    step (newPage env) true (fun _ =>
    step (goto env (url req)) true (fun _ =>
    step (page_text env) true (fun textContent =>
    step (close env AfterExtraction) true (fun _ =>
    step (generateContent env 0 (single_prompt textContent))
      false (fun _ => None)))))).

(** No call to the generator in the trace. *)
Definition no_generator_call (tr : list Event) : bool :=
  match generate_calls tr with
  | [] => true
  | _ :: _ => false
  end.

(** The generator is called only once the browser is closed again: a call is
    in order only in the state [Closed], which a trace reaches by a launch
    that succeeded followed by a call to [close] that completed; and once a
    call to [close] has thrown, no call to the generator is in order on the
    rest of the path. *)
Fixpoint generator_waits_for_close (state : BrowserState) (tr : list Event)
    : bool :=
  match tr with
  | [] => true
  | EvLaunch (Some b) :: tr' => generator_waits_for_close (Open b) tr'
  | EvClose b true :: tr' => generator_waits_for_close (Closed b) tr'
  | EvClose _ false :: tr' => no_generator_call tr'
  | EvGenerate _ _ _ :: tr' =>
      match state with
      | Closed _ => generator_waits_for_close state tr'
      | _ => false
      end
  | _ :: tr' => generator_waits_for_close state tr'
  end.

(** Whether a launch was attempted at all. *)
Definition launch_attempted (tr : list Event) : bool :=
  existsb (fun ev => match ev with EvLaunch _ => true | _ => false end) tr.

(** The rhythm of the iteration for one slide. *)
Definition slide_pace (env : Env) (len i : nat) (slide : Slide) : list Pace :=
  match generateContent env i (batch_prompt i len (text slide)) with
  | Ok _ => [Call i true; Pause 500]
  | Throw _ => [Call i false]
  end.

Fixpoint paces_from (env : Env) (len i : nat) (slides : list Slide)
    : list Pace :=
  match slides with
  | [] => []
  | slide :: rest => slide_pace env len i slide ++ paces_from env len (S i) rest
  end.

(** How a handler ends after an error [e] in its [try] block: the [catch]
    block answers 500 with the handler's text and [e.message], after closing
    the browser when [browser] still holds it, and when that call to [close]
    throws in turn the handler's promise is rejected with the new error. *)
Definition failure_outcome (env : Env) (failed : jsstring)
    (failure : Exn * bool) : Outcome :=
  let answer :=
    Responded {| status := 500;
                 payload := ErrorBody failed (Some (message (fst failure))) |} in
  if snd failure
  then match close env InCatch with
       | Ok _ => answer
       | Throw e' => Rejected e'
       end
  else answer.

(** The world of [calm_env] where the browser cannot be launched. *)
Definition launch_fails : Env :=
  {| launch := Throw {| message := [9]%N |};
     newPage := Ok tt;
     goto := fun _ => Ok tt;
     evaluate := Ok blank_page;
     close := fun _ => Ok tt;
     generateContent := echo_generator;
     type_error := engine_errors |}.

(** Two elements with a class containing "slide", both too short. *)
Definition badges_page : Page :=
  {| querySelectorAll := fun selector =>
       match selector with
       | SelClassSlide => [html_element 5; html_element 20]
       | _ => []
       end;
     body := Some {| body_innerText := letters 200;
                     body_innerText_cleaned := letters 200 |} |}.

(** { "toString": 1 } as a url. *)
Definition odd_url_request : Body :=
  {| url := odd_estimate; slideCount := JUndefined |}.

(** [true] as a url. *)
Definition true_url_request : Body :=
  {| url := JBool true; slideCount := JUndefined |}.

(** A string that does not begin with white space. *)
Definition starts_clean (s : jsstring) : Prop :=
  match s with
  | c :: _ => is_white_space c = false
  | [] => True
  end.

(** * Proofs *)



(** ** Lemmas on lists and strings *)

Lemma skipn_nth_error_cons (A : Type) (l : list A) (i : nat) (a : A) :
  nth_error l i = Some a -> skipn i l = a :: skipn (S i) l.
Proof.
  revert i; induction l as [| x l IH]; intros [| i] H; simpl in *;
    try discriminate.
  - now inversion H.
  - now apply IH.
Qed.

Lemma firstn_min_length (A : Type) (l : list A) (n : nat) :
  firstn (Nat.min (length l) n) l = firstn n l.
Proof.
  destruct (Nat.le_ge_cases n (length l)) as [H | H].
  - now rewrite Nat.min_r.
  - rewrite Nat.min_l by assumption.
    now rewrite firstn_all, firstn_all2.
Qed.

Lemma generate_calls_app (tr tr' : list Event) :
  generate_calls (tr ++ tr') = generate_calls tr ++ generate_calls tr'.
Proof.
  induction tr as [| ev tr IH]; simpl; [reflexivity |].
  destruct ev; simpl; now rewrite ?IH.
Qed.

Lemma narrations_from_length env len i slides :
  length (narrations_from env len i slides) = length slides.
Proof.
  revert i; induction slides as [| s slides IH]; intros i; simpl;
    [reflexivity | now rewrite IH].
Qed.

Lemma narrations_from_nth env len i slides k :
  nth_error (narrations_from env len i slides) k
  = option_map (slide_narration env len (i + k)) (nth_error slides k).
Proof.
  revert i k; induction slides as [| s slides IH]; intros i [| k]; simpl;
    try reflexivity.
  - now rewrite Nat.add_0_r.
  - rewrite IH. now replace (S i + k) with (i + S k) by lia.
Qed.

Lemma generate_calls_iteration env len i slide :
  generate_calls (iteration_events env len i slide)
  = [(i, batch_prompt i len (text slide))].
Proof.
  unfold iteration_events.
  now destruct (generateContent env i (batch_prompt i len (text slide))).
Qed.

Lemma generate_calls_events_from env len i slides k :
  nth_error (generate_calls (events_from env len i slides)) k
  = option_map (fun slide => (i + k, batch_prompt (i + k) len (text slide)))
      (nth_error slides k).
Proof.
  revert i k; induction slides as [| s slides IH]; intros i k; simpl.
  - now destruct k.
  - rewrite generate_calls_app, generate_calls_iteration. simpl.
    destruct k as [| k]; simpl.
    + now rewrite Nat.add_0_r.
    + rewrite IH. now replace (S i + k) with (i + S k) by lia.
Qed.

(** ** The loop runs to its end, whatever the generator does *)

Lemma generation_loop_run env slides remaining : forall i st,
  i + remaining <= length slides ->
  generation_loop env slides remaining i st
  = (events_from env (length slides) i (firstn remaining (skipn i slides)),
     {| browser := browser st;
        narrations := narrations st
          ++ narrations_from env (length slides) i
               (firstn remaining (skipn i slides)) |},
     Ok tt).
Proof.
  induction remaining as [| remaining IH]; intros i st Hle.
  - simpl. rewrite app_nil_r. now destruct st.
  - destruct (nth_error slides i) as [slide |] eqn:Hnth.
    2: { apply nth_error_None in Hnth. lia. }
    rewrite (skipn_nth_error_cons _ _ Hnth).
    cbn [generation_loop firstn events_from narrations_from].
    unfold bind at 1. rewrite Hnth. cbn [ret].
    unfold bind at 1, try_catch, slide_narration, iteration_events.
    unfold bind at 1, await.
    destruct (generateContent env i (batch_prompt i (length slides) (text slide)))
      as [result | error]; cbn.
    + rewrite IH by lia. cbn. now rewrite <- app_assoc.
    + rewrite IH by lia. cbn. now rewrite <- app_assoc.
Qed.

(** ** Runs of the batch handler that reach the generation loop: lemmas *)

Lemma is_ok_unit (r : Result unit) : is_ok r = true -> r = Ok tt.
Proof. destruct r as [[] | e]; [reflexivity | discriminate]. Qed.

Lemma render_slides_run env req slides :
  rendering_succeeds env req = true ->
  extraction env = Ok slides ->
  render_slides env req initial = (render_events env req slides, initial, Ok slides).
Proof.
  unfold rendering_succeeds. rewrite !andb_true_iff, negb_true_iff.
  intros [[[[[_ Htpl] Hlaunch] Hnew] Hgoto] Hclose] Hext.
  apply is_ok_unit in Hnew, Hgoto, Hclose.
  unfold render_slides, load_and_segment, render_events, opened, log_template,
    launch_browser, close_browser.
  rewrite Htpl, Hext, Hnew, Hgoto.
  destruct (launch env) as [b | e]; [| discriminate].
  cbn. rewrite Hclose. reflexivity.
Qed.

Lemma narrate_slides_run env slides st :
  narrate_slides env slides st
  = (batch_events env slides
       ++ [EvLog (LogBatchDone (length (narrations st ++ batch_narrations env slides)))],
     {| browser := browser st;
        narrations := narrations st ++ batch_narrations env slides |},
     Ok {| status := 200;
           payload := BatchOk (narrations st ++ batch_narrations env slides)
                        (length slides)
                        (length (narrations st ++ batch_narrations env slides)) |}).
Proof.
  unfold narrate_slides, bind at 1.
  rewrite generation_loop_run by (simpl; lia).
  simpl skipn. rewrite firstn_min_length. reflexivity.
Qed.

Lemma analyze_slides_batch_run env req slides :
  rendering_succeeds env req = true ->
  extraction env = Ok slides ->
  analyze_slides_batch env req
  = (render_events env req slides ++ batch_events env slides
       ++ [EvLog (LogBatchDone (length (batch_narrations env slides)))],
     Responded {| status := 200;
                  payload := BatchOk (batch_narrations env slides) (length slides)
                               (length (batch_narrations env slides)) |}).
Proof.
  intros Hok Hext.
  assert (Hurl : truthy (url req) = true).
  { unfold rendering_succeeds in Hok. rewrite !andb_true_iff in Hok. tauto. }
  unfold analyze_slides_batch, try_catch, analyze_slides_batch_try, bind.
  rewrite Hurl, (render_slides_run _ _ Hok Hext), narrate_slides_run.
  reflexivity.
Qed.

(** ** Narrations of a batch *)

Lemma nth_error_firstn_lt (A : Type) (l : list A) (n i : nat) :
  i < n -> nth_error (firstn n l) i = nth_error l i.
Proof.
  revert n i; induction l as [| x l IH]; intros [| n] [| i] H; simpl;
    try reflexivity; try lia.
  apply IH. lia.
Qed.

Lemma batch_narrations_length env slides :
  length (batch_narrations env slides) = Nat.min (length slides) 50.
Proof.
  unfold batch_narrations.
  rewrite narrations_from_length, length_firstn. apply Nat.min_comm.
Qed.

Lemma batch_narrations_nth env slides i :
  i < 50 ->
  nth_error (batch_narrations env slides) i
  = option_map (slide_narration env (length slides) i) (nth_error slides i).
Proof.
  intros Hi. unfold batch_narrations.
  now rewrite narrations_from_nth, nth_error_firstn_lt.
Qed.

Lemma batch_narrations_beyond env slides i :
  50 <= i -> nth_error (batch_narrations env slides) i = None.
Proof.
  intros Hi. apply nth_error_None. rewrite batch_narrations_length. lia.
Qed.

(** C1: a batch run that reaches the loop answers 200 with one narration per
    processed slide, in slide order: the number of narrations is the reported
    generatedCount and is min(number of segmented slides, 50), the i-th
    narration is the one made from the i-th slide of the segmenter's output,
    and the reported slideCount is the number of segmented slides. *)
Theorem batch_one_narration_per_slide env req slides :
  rendering_succeeds env req = true ->
  extraction env = Ok slides ->
  exists ns,
    snd (analyze_slides_batch env req)
    = Responded {| status := 200;
                   payload := BatchOk ns (length slides) (length ns) |}
    /\ length ns = Nat.min (length slides) 50
    /\ forall i slide,
         i < 50 -> nth_error slides i = Some slide ->
         nth_error ns i = Some (slide_narration env (length slides) i slide).
Proof.
  intros Hok Hext. exists (batch_narrations env slides).
  rewrite (analyze_slides_batch_run _ _ Hok Hext). simpl. split; [reflexivity |].
  split; [apply batch_narrations_length |].
  intros i slide Hi Hnth. now rewrite batch_narrations_nth, Hnth.
Qed.

Lemma batch_one_narration_per_slide_witness :
  rendering_succeeds (calm_env three_boxes_page) plain_request = true
  /\ extraction (calm_env three_boxes_page)
     = Ok [ {| text := letters 25; index := 0 |};
            {| text := letters 100; index := 2 |} ]
  /\ exists ns,
       snd (analyze_slides_batch (calm_env three_boxes_page) plain_request)
       = Responded {| status := 200; payload := BatchOk ns 2 (length ns) |}
       /\ length ns = 2.
Proof.
  split; [reflexivity |]. split; [reflexivity |].
  destruct (@batch_one_narration_per_slide (calm_env three_boxes_page)
              plain_request
              [ {| text := letters 25; index := 0 |};
                {| text := letters 100; index := 2 |} ]
              eq_refl eq_refl) as [ns [Hresp [Hlen _]]].
  exists ns. split; assumption.
Defined.

(** ** Failure isolation *)

Lemma rendering_succeeds_with_generator env g req :
  rendering_succeeds (with_generator env g) req = rendering_succeeds env req.
Proof. reflexivity. Qed.

Lemma extraction_with_generator env g :
  extraction (with_generator env g) = extraction env.
Proof. reflexivity. Qed.

Lemma slide_narration_with_generator env g len i slide :
  (forall prompt, g i prompt = generateContent env i prompt) ->
  slide_narration (with_generator env g) len i slide
  = slide_narration env len i slide.
Proof. intros Hg. unfold slide_narration. simpl. now rewrite Hg. Qed.

(** The placeholder of line 226, code unit by code unit: the four units of
    'スライド', the decimal digits of the ordinal (one or two of them up to
    the 50 slides a batch processes), and the ten units of
    'の内容を説明します。'. *)
Lemma fallback_narration_text k :
  k < 50 ->
  fallback_narration (k + 1)
  = [12473; 12521; 12452; 12489]%N
      ++ (if (k + 1 <? 10)%nat
          then [N.of_nat (48 + (k + 1))]
          else [N.of_nat (48 + (k + 1) / 10); N.of_nat (48 + (k + 1) mod 10)])
      ++ [12398; 20869; 23481; 12434; 35500; 26126; 12375; 12414; 12377;
          12290]%N.
Proof.
  intros Hk.
  do 50 (destruct k as [| k]; [reflexivity |]).
  lia.
Qed.

(** C2: when the generator fails on the call for slide k, the batch still
    answers 200 with a narration for every processed slide; entry k is the
    placeholder 'スライド{k+1}の内容を説明します。', written out below in
    code units with the decimal digits of k+1 between the two literal parts,
    and every other entry is what it is in the run of the same batch with a
    generator that differs on call k only (in particular with one that does
    not fail there). *)
Theorem failure_is_isolated env g req slides k slide error :
  rendering_succeeds env req = true ->
  extraction env = Ok slides ->
  k < 50 ->
  nth_error slides k = Some slide ->
  generateContent env k (batch_prompt k (length slides) (text slide))
  = Throw error ->
  (forall i prompt, i <> k -> g i prompt = generateContent env i prompt) ->
  exists ns ns',
    snd (analyze_slides_batch env req)
    = Responded {| status := 200;
                   payload := BatchOk ns (length slides) (length ns) |}
    /\ snd (analyze_slides_batch (with_generator env g) req)
       = Responded {| status := 200;
                      payload := BatchOk ns' (length slides) (length ns') |}
    /\ length ns = Nat.min (length slides) 50
    /\ length ns' = Nat.min (length slides) 50
    /\ nth_error ns k
       = Some ([12473; 12521; 12452; 12489]%N
                 ++ (if (k + 1 <? 10)%nat
                     then [N.of_nat (48 + (k + 1))]
                     else [N.of_nat (48 + (k + 1) / 10);
                           N.of_nat (48 + (k + 1) mod 10)])
                 ++ [12398; 20869; 23481; 12434; 35500; 26126; 12375; 12414;
                     12377; 12290]%N)
    /\ forall i, i <> k -> nth_error ns i = nth_error ns' i.
Proof.
  intros Hok Hext Hk Hnth Hfail Hsame.
  exists (batch_narrations env slides),
         (batch_narrations (with_generator env g) slides).
  rewrite (analyze_slides_batch_run _ _ Hok Hext).
  rewrite (@analyze_slides_batch_run (with_generator env g) req slides Hok Hext).
  cbn [snd].
  split; [reflexivity |]. split; [reflexivity |].
  split; [apply batch_narrations_length |].
  split; [apply batch_narrations_length |].
  split.
  - rewrite batch_narrations_nth, Hnth by assumption. cbn [option_map].
    unfold slide_narration. rewrite Hfail.
    now rewrite fallback_narration_text.
  - intros i Hi. destruct (Nat.lt_ge_cases i 50) as [Hlt | Hge].
    + rewrite !batch_narrations_nth by assumption.
      destruct (nth_error slides i) as [s |]; [simpl | reflexivity].
      rewrite slide_narration_with_generator; [reflexivity |].
      intros prompt. now apply Hsame.
    + now rewrite !batch_narrations_beyond.
Qed.

Lemma failure_is_isolated_witness :
  rendering_succeeds (with_generator (calm_env (deck_page 3)) (failing_at 1))
    plain_request = true
  /\ generateContent (with_generator (calm_env (deck_page 3)) (failing_at 1)) 1
       (batch_prompt 1 3 (letters 30)) = Throw {| message := [5]%N |}
  /\ exists ns ns',
       snd (analyze_slides_batch
              (with_generator (calm_env (deck_page 3)) (failing_at 1))
              plain_request)
       = Responded {| status := 200; payload := BatchOk ns 3 (length ns) |}
       /\ snd (analyze_slides_batch (calm_env (deck_page 3)) plain_request)
          = Responded {| status := 200; payload := BatchOk ns' 3 (length ns') |}
       /\ nth_error ns 1
          = Some [12473; 12521; 12452; 12489; 50; 12398; 20869; 23481; 12434;
                  35500; 26126; 12375; 12414; 12377; 12290]%N
       /\ nth_error ns 0 = nth_error ns' 0
       /\ nth_error ns 2 = nth_error ns' 2.
Proof.
  split; [reflexivity |]. split; [reflexivity |].
  destruct (@failure_is_isolated
              (with_generator (calm_env (deck_page 3)) (failing_at 1))
              echo_generator plain_request
              [ {| text := letters 30; index := 0 |};
                {| text := letters 30; index := 1 |};
                {| text := letters 30; index := 2 |} ]
              1 {| text := letters 30; index := 1 |} {| message := [5]%N |}
              eq_refl eq_refl)
    as [ns [ns' [H1 [H2 [_ [_ [Hk Hother]]]]]]].
  - lia.
  - reflexivity.
  - reflexivity.
  - intros i prompt Hi. unfold failing_at. simpl.
    destruct (Nat.eqb_spec i 1) as [-> | _]; [contradiction | reflexivity].
  - exists ns, ns'. repeat split; try assumption; apply Hother; lia.
Defined.

(** The worked example: the generator throws for slide index 1 of 3. *)
Example failure_on_second_of_three :
  snd (analyze_slides_batch
         (with_generator (calm_env (deck_page 3)) (failing_at 1)) plain_request)
  = Responded {| status := 200;
                 payload := BatchOk
                              [ [98]%N;
                                [12473; 12521; 12452; 12489; 50; 12398; 20869;
                                 23481; 12434; 35500; 26126; 12375; 12414;
                                 12377; 12290]%N;
                                [98; 98; 98]%N ]
                              3 3 |}.
Proof. reflexivity. Qed.

(** ** Position roles *)

Lemma position_role_first i len : i = 0 -> position_role i len = First.
Proof. intros ->. reflexivity. Qed.

Lemma position_role_last i len :
  i <> 0 -> i = len - 1 -> position_role i len = Last.
Proof.
  intros Hi Hlast. unfold position_role.
  destruct (Nat.eqb_spec i 0) as [? | _]; [contradiction |].
  destruct (Z.eqb_spec (Z.of_nat i) (Z.of_nat len - 1)) as [_ | Hne];
    [reflexivity | lia].
Qed.

Lemma position_role_middle i len :
  i <> 0 -> i <> len - 1 -> position_role i len = Middle.
Proof.
  intros Hi Hlast. unfold position_role.
  destruct (Nat.eqb_spec i 0) as [? | _]; [contradiction |].
  destruct (Z.eqb_spec (Z.of_nat i) (Z.of_nat len - 1)) as [He | _];
    [lia | reflexivity].
Qed.

(** The requirement line tells the roles apart, so a prompt determines the
    role it was built for. *)
Lemma prompt_for_role_inj r r' ordinal slideText slideText' :
  prompt_for r ordinal slideText = prompt_for r' ordinal slideText' -> r = r'.
Proof.
  unfold prompt_for. intros H.
  apply app_inv_head in H. apply app_inv_head in H. apply app_inv_head in H.
  destruct r, r'; try reflexivity; simpl in H; discriminate H.
Qed.

Lemma generate_calls_render_events env req slides :
  generate_calls (render_events env req slides) = [].
Proof. unfold render_events. now destruct (opened env). Qed.

Lemma generate_calls_batch env req slides :
  rendering_succeeds env req = true ->
  extraction env = Ok slides ->
  generate_calls (fst (analyze_slides_batch env req))
  = generate_calls (batch_events env slides).
Proof.
  intros Hok Hext. rewrite (analyze_slides_batch_run _ _ Hok Hext). simpl.
  rewrite !generate_calls_app, generate_calls_render_events. simpl.
  apply app_nil_r.
Qed.

(** C3, as the code has it: in a batch run that reaches the loop, the i-th
    call to the generator carries the prompt of slide i built for a role r,
    where r is first when i = 0, last when i <> 0 and i is the last index of
    the segmented list (i = number of segmented slides - 1), and middle
    otherwise.  So with more than one processed slide the last processed
    slide is requested with role last whenever at most 50 slides were
    segmented. *)
Theorem request_roles env req slides i slide :
  rendering_succeeds env req = true ->
  extraction env = Ok slides ->
  i < 50 ->
  nth_error slides i = Some slide ->
  exists r,
    nth_error (generate_calls (fst (analyze_slides_batch env req))) i
    = Some (i, prompt_for r (i + 1) (text slide))
    /\ (i = 0 -> r = First)
    /\ (i <> 0 -> i = length slides - 1 -> r = Last)
    /\ (i <> 0 -> i <> length slides - 1 -> r = Middle)
    /\ (1 < length slides <= 50 ->
        i = Nat.min (length slides) 50 - 1 -> r = Last).
Proof.
  intros Hok Hext Hi Hnth. exists (position_role i (length slides)).
  rewrite (generate_calls_batch _ _ Hok Hext). unfold batch_events.
  rewrite generate_calls_events_from, nth_error_firstn_lt, Hnth by assumption.
  simpl. split; [reflexivity |].
  split; [apply position_role_first |].
  split; [apply position_role_last |].
  split; [apply position_role_middle |].
  intros [Hmany Hcap] Hlast. apply position_role_last; lia.
Qed.

Lemma request_roles_witness :
  rendering_succeeds (calm_env (deck_page 3)) plain_request = true
  /\ exists r,
       nth_error (generate_calls
                    (fst (analyze_slides_batch (calm_env (deck_page 3))
                            plain_request))) 2
       = Some (2, prompt_for r 3 (letters 30))
       /\ r = Last.
Proof.
  split; [reflexivity |].
  destruct (@request_roles (calm_env (deck_page 3)) plain_request
              [ {| text := letters 30; index := 0 |};
                {| text := letters 30; index := 1 |};
                {| text := letters 30; index := 2 |} ]
              2 {| text := letters 30; index := 2 |} eq_refl eq_refl)
    as [r [Hcall [_ [Hlast _]]]].
  - lia.
  - reflexivity.
  - exists r. split; [exact Hcall | apply Hlast; simpl; lia].
Defined.

(** C3 as worded fails when the cap cuts the list: with 51 segmented slides
    the last processed slide is the one at index 49, the last index of the
    capped list, and its prompt is the one for role middle, not for last. *)
Lemma capped_last_slide_is_middle :
  rendering_succeeds (calm_env (deck_page 51)) plain_request = true
  /\ Nat.min 51 50 - 1 = 49
  /\ capped_role 49 (Nat.min 51 50) = Last
  /\ nth_error (generate_calls
                  (fst (analyze_slides_batch (calm_env (deck_page 51))
                          plain_request))) 49
     = Some (49, prompt_for Middle 50 (letters 30))
  /\ prompt_for Middle 50 (letters 30)
     <> prompt_for (capped_role 49 (Nat.min 51 50)) 50 (letters 30).
Proof.
  split; [reflexivity |]. split; [reflexivity |]. split; [reflexivity |].
  split; [vm_compute; reflexivity |].
  intros H. apply prompt_for_role_inj in H. discriminate H.
Qed.

(** ** The segmenter *)

Lemma select_elements_no_match page selectors slideElements :
  (forall s, In s selectors -> querySelectorAll page s = []) ->
  select_elements page selectors slideElements = slideElements.
Proof.
  induction selectors as [| s selectors IH]; intros Hnone; simpl;
    [reflexivity |].
  rewrite (Hnone s (or_introl eq_refl)). simpl.
  apply IH. intros s' Hin. apply Hnone. now right.
Qed.

Lemma select_elements_first_match page pre s post slideElements :
  (forall s', In s' pre -> querySelectorAll page s' = []) ->
  querySelectorAll page s <> [] ->
  select_elements page (pre ++ s :: post) slideElements = querySelectorAll page s.
Proof.
  induction pre as [| p pre IH]; intros Hpre Hs; simpl.
  - destruct (querySelectorAll page s); [contradiction | reflexivity].
  - rewrite (Hpre p (or_introl eq_refl)). simpl.
    apply IH; [| assumption]. intros s' Hin. apply Hpre. now right.
Qed.

Lemma segment_first_match env page pre s post :
  slideSelectors = pre ++ s :: post ->
  (forall s', In s' pre -> querySelectorAll page s' = []) ->
  querySelectorAll page s <> [] ->
  segment env page = apply_pattern env page s.
Proof.
  intros Hsplit Hpre Hs. unfold segment, apply_pattern.
  rewrite Hsplit, select_elements_first_match by assumption.
  destruct (querySelectorAll page s); [contradiction | reflexivity].
Qed.

Lemma segment_no_match env page :
  (forall s, In s slideSelectors -> querySelectorAll page s = []) ->
  segment env page
  = match body page with
    | Some b => Ok [whole_page b]
    | None => Throw (type_error env InnerTextOfNull)
    end.
Proof.
  intros Hnone. unfold segment.
  now rewrite select_elements_no_match by assumption.
Qed.

Lemma first_match_exists page :
  (exists s, In s slideSelectors /\ querySelectorAll page s <> []) ->
  exists pre s post,
    slideSelectors = pre ++ s :: post
    /\ (forall s', In s' pre -> querySelectorAll page s' = [])
    /\ querySelectorAll page s <> [].
Proof.
  generalize slideSelectors as selectors.
  induction selectors as [| p selectors IH]; intros [s [Hin Hs]];
    [contradiction |].
  destruct (querySelectorAll page p) as [| e es] eqn:Hp.
  - destruct Hin as [-> | Hin]; [congruence |].
    destruct IH as [pre [s' [post [Hsplit [Hpre Hs']]]]]; [now exists s |].
    exists (p :: pre), s', post. split; [now rewrite Hsplit |].
    split; [| assumption].
    intros q [<- | Hq]; [assumption | now apply Hpre].
  - exists [], p, selectors. split; [reflexivity |].
    split; [intros q [] | congruence].
Qed.

Lemma filter_candidates_long e candidates slides :
  filter_candidates e candidates = Ok slides -> Forall long_enough slides.
Proof.
  revert slides; induction candidates as [| c candidates IH]; intros slides H;
    simpl in H.
  - inversion H. constructor.
  - destruct (candidate_text c) as [t |]; [| discriminate].
    destruct (filter_candidates e candidates) as [kept | e']; [| discriminate].
    destruct (Nat.ltb_spec 20 (length (trim t))) as [Hlong | Hshort];
      inversion H; subst.
    + constructor; [exact Hlong | now apply IH].
    + now apply IH.
Qed.




(** C4, as the code has it: when some pattern matches, every slide the
    segmenter returns has a trimmed text of more than 20 code units, the
    shorter candidates having been dropped; when no pattern matches, the
    whole page is returned as the one slide, whatever the length of its
    text. *)
Theorem short_candidates_are_dropped env page slides :
  segment env page = Ok slides ->
  ((exists s, In s slideSelectors /\ querySelectorAll page s <> []) ->
   Forall (fun slide => 20 < length (trim (text slide))) slides)
  /\ ((forall s, In s slideSelectors -> querySelectorAll page s = []) ->
      exists b,
        body page = Some b
        /\ slides = [ {| text := body_innerText b; index := 0 |} ]).
Proof.
  intros Hseg. split.
  - intros Hsome.
    destruct (@first_match_exists page Hsome) as [pre [s [post [Hsplit [Hpre Hs]]]]].
    rewrite (@segment_first_match env page pre s post Hsplit Hpre Hs) in Hseg.
    exact (@filter_candidates_long _ _ _ Hseg).
  - intros Hnone. rewrite (@segment_no_match env page Hnone) in Hseg.
    destruct (body page) as [b |]; [| discriminate].
    exists b. split; [reflexivity | now inversion Hseg].
Qed.

Lemma short_candidates_are_dropped_witness :
  segment (calm_env three_boxes_page) three_boxes_page
  = Ok [ {| text := letters 25; index := 0 |};
         {| text := letters 100; index := 2 |} ]
  /\ Forall (fun slide => 20 < length (trim (text slide)))
       [ {| text := letters 25; index := 0 |};
         {| text := letters 100; index := 2 |} ].
Proof.
  split; [reflexivity |].
  apply (proj1 (@short_candidates_are_dropped (calm_env three_boxes_page)
                  three_boxes_page _ eq_refl)).
  exists SelClassSlide. split; [simpl; tauto | discriminate].
Defined.

(** C4 as worded fails in the fallback case: on a page where no pattern
    matches and the body is empty the segmenter returns one slide whose
    trimmed text has length 0. *)
Lemma fallback_slide_is_not_filtered :
  (forall s, In s slideSelectors -> querySelectorAll blank_page s = [])
  /\ segment (calm_env blank_page) blank_page
     = Ok [ {| text := []; index := 0 |} ]
  /\ ~ Forall (fun slide => 20 < length (trim (text slide)))
         [ {| text := []; index := 0 |} ].
Proof.
  split; [intros s _; reflexivity |]. split; [reflexivity |].
  intros H. inversion H as [| slide rest Hlong _]. simpl in Hlong. lia.
Qed.

(** An element without [innerText] makes the page script throw; the batch is
    answered 500 and the browser is closed by the catch block. *)
Example undefined_text_aborts_extraction :
  segment (calm_env svg_page) svg_page = Throw {| message := [2]%N |}
  /\ browser_events (fst (analyze_slides_batch (calm_env svg_page) plain_request))
     = [Launched 1; CloseCalled 1 true]
  /\ snd (analyze_slides_batch (calm_env svg_page) plain_request)
     = Responded {| status := 500;
                    payload := ErrorBody msg_batch_failed (Some [2]%N) |}.
Proof. repeat split. Qed.

(** C6, as the code has it: when the winning pattern matches exactly three
    elements whose trimmed texts have 25, 15 and 100 code units, the segmenter
    returns exactly two slides, the first and the third element, with the
    index fields 0 and 2 they had before filtering; the batch answers with
    exactly two narrations, requested with roles first and last. *)
Theorem three_candidates_two_slides env req page pre s post e0 e1 e2 t0 t1 t2 :
  rendering_succeeds env req = true ->
  evaluate env = Ok page ->
  slideSelectors = pre ++ s :: post ->
  (forall s', In s' pre -> querySelectorAll page s' = []) ->
  querySelectorAll page s = [e0; e1; e2] ->
  innerText e0 = Some t0 -> innerText e1 = Some t1 -> innerText e2 = Some t2 ->
  length (trim t0) = 25 -> length (trim t1) = 15 -> length (trim t2) = 100 ->
  segment env page
  = Ok [ {| text := t0; index := 0 |}; {| text := t2; index := 2 |} ]
  /\ exists n0 n1,
       snd (analyze_slides_batch env req)
       = Responded {| status := 200; payload := BatchOk [n0; n1] 2 2 |}
       /\ generate_calls (fst (analyze_slides_batch env req))
          = [ (0, prompt_for First 1 t0); (1, prompt_for Last 2 t2) ].
Proof.
  intros Hok Hpage Hsplit Hpre Hs H0 H1 H2 L0 L1 L2.
  assert (Hseg : segment env page
                 = Ok [ {| text := t0; index := 0 |};
                        {| text := t2; index := 2 |} ]).
  { rewrite (@segment_first_match env page pre s post Hsplit Hpre)
      by (rewrite Hs; discriminate).
    unfold apply_pattern. rewrite Hs. simpl.
    rewrite H0, H1, H2, L0, L1, L2. reflexivity. }
  split; [exact Hseg |].
  assert (Hext : extraction env
                 = Ok [ {| text := t0; index := 0 |};
                        {| text := t2; index := 2 |} ]).
  { unfold extraction. now rewrite Hpage. }
  rewrite (generate_calls_batch _ _ Hok Hext).
  rewrite (analyze_slides_batch_run _ _ Hok Hext).
  eexists _, _. split; [reflexivity |].
  unfold batch_events. simpl.
  rewrite !generate_calls_app, !generate_calls_iteration. reflexivity.
Qed.

Lemma three_candidates_two_slides_witness :
  rendering_succeeds (calm_env three_boxes_page) plain_request = true
  /\ querySelectorAll three_boxes_page SelClassSlide
     = [html_element 25; html_element 15; html_element 100]
  /\ length (trim (letters 15)) = 15
  /\ segment (calm_env three_boxes_page) three_boxes_page
     = Ok [ {| text := letters 25; index := 0 |};
            {| text := letters 100; index := 2 |} ].
Proof.
  split; [reflexivity |]. split; [reflexivity |]. split; [reflexivity |].
  refine (proj1 (@three_candidates_two_slides (calm_env three_boxes_page)
                   plain_request three_boxes_page [SelSection] SelClassSlide
                   [SelClassPage; SelArticle; SelSwiperSlide]
                   (html_element 25) (html_element 15) (html_element 100)
                   (letters 25) (letters 15) (letters 100)
                   eq_refl eq_refl eq_refl _ eq_refl eq_refl eq_refl eq_refl
                   eq_refl eq_refl eq_refl)).
  intros s' [<- | []]. reflexivity.
Defined.

(** C6 as worded fails on the index fields: for three matched elements of 25,
    15 and 100 letters the two slides carry the indices 0 and 2, not the
    renumbered 0 and 1. *)
Lemma indices_are_not_renumbered :
  querySelectorAll three_boxes_page SelSection = []
  /\ querySelectorAll three_boxes_page SelClassSlide
     = [html_element 25; html_element 15; html_element 100]
  /\ segment (calm_env three_boxes_page) three_boxes_page
     = Ok [ {| text := letters 25; index := 0 |};
            {| text := letters 100; index := 2 |} ]
  /\ map index [ {| text := letters 25; index := 0 |};
                 {| text := letters 100; index := 2 |} ] <> [0; 1].
Proof.
  split; [reflexivity |]. split; [reflexivity |]. split; [reflexivity |].
  discriminate.
Qed.

(** ** Pacing *)

Lemma pacing_iteration env len i slide :
  pacing (iteration_events env len i slide)
  = match generateContent env i (batch_prompt i len (text slide)) with
    | Ok _ => [Call i true; Pause 500]
    | Throw _ => [Call i false]
    end.
Proof.
  unfold iteration_events.
  now destruct (generateContent env i (batch_prompt i len (text slide))).
Qed.

(** C7 at a failing input: two slides, the generator throws on the first.  The
    call for the second slide follows the failed call with no wait between
    them; the only 500ms wait is the one after the successful second call
    (the 3000ms wait is the settling time of the page). *)
Theorem no_pause_after_failed_slide :
  pacing (fst (analyze_slides_batch
                 (with_generator (calm_env (deck_page 2)) (failing_at 0))
                 plain_request))
  = [Pause 3000; Call 0 false; Call 1 true; Pause 500].
Proof. reflexivity. Qed.

(** ** The slideCount field *)

Lemma analyze_slides_batch_logged env req :
  truthy (url req) = true ->
  existsb to_string_throws [url req; estimate req] = false ->
  analyze_slides_batch env req
  = let '(tr, st, r) :=
      try_catch (slides <- load_and_segment env (url req) ;;
                 narrate_slides env slides)
        (analyze_slides_batch_catch env) initial in
    finish (EvLog (LogBatchStart (url req) (estimate req)) :: tr, st, r).
Proof.
  intros Hurl Hlog.
  unfold analyze_slides_batch, analyze_slides_batch_try, render_slides,
    log_template.
  rewrite Hurl, Hlog. unfold try_catch, bind, log, emit. simpl.
  destruct (load_and_segment env (url req) initial) as [[tr st] [slides | e]].
  - destruct (narrate_slides env slides st) as [[tr' st'] [r | e]]; simpl.
    + reflexivity.
    + now destruct (analyze_slides_batch_catch env e st') as [[tr'' st''] r].
  - now destruct (analyze_slides_batch_catch env e st) as [[tr' st'] r].
Qed.

Lemma analyze_slides_batch_unloggable env req :
  truthy (url req) = true ->
  existsb to_string_throws [url req; estimate req] = true ->
  analyze_slides_batch env req
  = ([EvLog (LogBatchError (message (type_error env NotPrimitive)))],
     Responded {| status := 500;
                  payload := ErrorBody msg_batch_failed
                               (Some (message (type_error env NotPrimitive))) |}).
Proof.
  intros Hurl Hlog.
  unfold analyze_slides_batch, analyze_slides_batch_try, render_slides,
    log_template.
  rewrite Hurl, Hlog. reflexivity.
Qed.

(** C8, as the code has it: two batch requests with the same url, in the same
    world, whose slideCount values can both be written to the log (the
    string conversion of [slideCount || '不明'] does not throw: true of an
    absent slideCount and of every null, boolean, number and string) get the
    same outcome, and apart from log lines the same events happen. *)
Theorem slideCount_is_only_logged env req req' :
  url req = url req' ->
  to_string_throws (estimate req) = false ->
  to_string_throws (estimate req') = false ->
  snd (analyze_slides_batch env req) = snd (analyze_slides_batch env req')
  /\ unlogged (fst (analyze_slides_batch env req))
     = unlogged (fst (analyze_slides_batch env req')).
Proof.
  intros Hsame Hest Hest'.
  destruct (truthy (url req')) eqn:Hurl.
  - destruct (to_string_throws (url req')) eqn:Hconv.
    + rewrite !analyze_slides_batch_unloggable;
        rewrite ?Hsame; simpl; rewrite ?Hconv; auto.
    + rewrite !analyze_slides_batch_logged;
        rewrite ?Hsame; simpl; rewrite ?Hconv, ?Hest, ?Hest'; auto.
      destruct (try_catch _ _ initial) as [[tr st] [r | e]]; simpl; auto.
  - unfold analyze_slides_batch. rewrite Hsame, Hurl. simpl. auto.
Qed.

Lemma slideCount_is_only_logged_witness :
  url plain_request = url counted_request
  /\ to_string_throws (estimate plain_request) = false
  /\ to_string_throws (estimate counted_request) = false
  /\ snd (analyze_slides_batch (calm_env (deck_page 3)) plain_request)
     = snd (analyze_slides_batch (calm_env (deck_page 3)) counted_request).
Proof.
  split; [reflexivity |]. split; [reflexivity |]. split; [reflexivity |].
  exact (proj1 (@slideCount_is_only_logged (calm_env (deck_page 3))
                  plain_request counted_request eq_refl eq_refl eq_refl)).
Defined.

(** C8 as worded fails for a slideCount that cannot be converted to a string:
    with the same url and the same world, the request without slideCount is
    answered 200 with three narrations, and the request whose slideCount is
    an object with a member named toString is answered 500, the start line
    having thrown before the browser was launched. *)
Lemma slideCount_can_change_the_response :
  url plain_request = url odd_request
  /\ snd (analyze_slides_batch (calm_env (deck_page 3)) plain_request)
     = Responded {| status := 200;
                    payload := BatchOk [ [98]%N; [98; 98]%N; [98; 98; 98]%N ] 3 3 |}
  /\ analyze_slides_batch (calm_env (deck_page 3)) odd_request
     = ([EvLog (LogBatchError [1]%N)],
        Responded {| status := 500;
                     payload := ErrorBody msg_batch_failed (Some [1]%N) |})
  /\ snd (analyze_slides_batch (calm_env (deck_page 3)) plain_request)
     <> snd (analyze_slides_batch (calm_env (deck_page 3)) odd_request).
Proof.
  split; [reflexivity |]. split; [reflexivity |]. split; [reflexivity |].
  discriminate.
Qed.

(** ** Validation of the url *)

(** C10: a request whose url is falsy (absent, null, false, zero, NaN or the
    empty string) is answered by either endpoint with status 400 and the
    error text of a missing url, exactly as the request with the url left
    out, and nothing else happens: no event at all, so no browser launch. *)
Theorem falsy_url_is_rejected env req :
  truthy (url req) = false ->
  analyze_slide env req
  = ([], Responded {| status := 400;
                      payload := ErrorBody msg_url_required None |})
  /\ analyze_slides_batch env req
     = ([], Responded {| status := 400;
                         payload := ErrorBody msg_url_required None |})
  /\ analyze_slide env req
     = analyze_slide env {| url := JUndefined; slideCount := slideCount req |}
  /\ analyze_slides_batch env req
     = analyze_slides_batch env
         {| url := JUndefined; slideCount := slideCount req |}.
Proof.
  intros Hfalsy. unfold analyze_slide, analyze_slides_batch.
  rewrite Hfalsy. simpl. repeat split.
Qed.

Lemma falsy_url_is_rejected_witness :
  truthy (JString []) = false
  /\ analyze_slides_batch (calm_env (deck_page 3))
       {| url := JString []; slideCount := JUndefined |}
     = ([], Responded {| status := 400;
                         payload := ErrorBody msg_url_required None |}).
Proof.
  split; [reflexivity |].
  exact (proj1 (proj2 (@falsy_url_is_rejected (calm_env (deck_page 3))
                         {| url := JString []; slideCount := JUndefined |}
                         eq_refl))).
Defined.

(** The falsy values a JSON body can carry. *)
Example falsy_values :
  map truthy [ JUndefined; JNull; JBool false; JNumber (S754_zero false);
               JNumber (S754_zero true); JNumber S754_nan; JString [] ]
  = [false; false; false; false; false; false; false].
Proof. reflexivity. Qed.

(** ** The browser is released *)










(** The traces the release condition turns down: a browser launched and never
    closed, a call to close with no browser launched, and a second call to
    close after one that completed. *)
Example released_properly_rejects :
  ~ released_properly [EvLaunch (Some 1)]
  /\ ~ released_properly [EvClose 1 true]
  /\ ~ released_properly [EvLaunch (Some 1); EvClose 1 true; EvClose 1 true].
Proof.
  unfold released_properly. repeat split.
  - intros [_ [_ [_ [H _]]]]. destruct (H eq_refl eq_refl) as [H1 _].
    discriminate H1.
  - intros [[final H] _]. discriminate H.
  - intros [[final H] _]. discriminate H.
Qed.

(** * Further properties of the handlers *)

(** ** The segmenter's output, element by element *)

Lemma filter_candidates_members e elements : forall k slides,
  filter_candidates e (map_elements elements k) = Ok slides ->
  forall t idx,
    In {| text := t; index := idx |} slides
    <-> exists j el,
          idx = k + j /\ nth_error elements j = Some el
          /\ innerText el = Some t /\ 20 < length (trim t).
Proof.
  induction elements as [| el elements IH]; intros k slides H t idx;
    simpl in H.
  - inversion H; subst. split; [intros [] |].
    intros [j [el [_ [Hnth _]]]]. now destruct j.
  - destruct (innerText el) as [t0 |] eqn:Htext; [| discriminate].
    destruct (filter_candidates e (map_elements elements (S k)))
      as [kept | e'] eqn:Hrest; [| discriminate].
    specialize (IH (S k) kept Hrest t idx).
    assert (Hshift : In {| text := t; index := idx |} kept
                     <-> exists j el',
                           idx = k + S j /\ nth_error elements j = Some el'
                           /\ innerText el' = Some t /\ 20 < length (trim t)).
    { rewrite IH. split; intros [j [el' [Hi Hr]]]; exists j, el';
        (split; [lia | exact Hr]). }
    destruct (Nat.ltb_spec 20 (length (trim t0))) as [Hlong | Hshort];
      inversion H; subst; simpl.
    + rewrite Hshift. split.
      * intros [Heq | [j [el' [Hi Hr]]]].
        -- inversion Heq; subst. exists 0, el. simpl.
           repeat split; try assumption. lia.
        -- exists (S j), el'. simpl. split; [exact Hi | exact Hr].
      * intros [[| j] [el' [Hi [Hnth [Ht Hl]]]]]; simpl in Hnth.
        -- inversion Hnth; subst. left. f_equal; [congruence | lia].
        -- right. exists j, el'. repeat split; assumption.
    + rewrite Hshift. split.
      * intros [j [el' [Hi Hr]]]. exists (S j), el'. simpl.
        split; [exact Hi | exact Hr].
      * intros [[| j] [el' [Hi [Hnth [Ht Hl]]]]]; simpl in Hnth.
        -- inversion Hnth; subst. rewrite Htext in Ht. inversion Ht; subst. lia.
        -- exists j, el'. repeat split; assumption.
Qed.

Lemma filter_candidates_sorted e elements : forall k slides,
  filter_candidates e (map_elements elements k) = Ok slides ->
  StronglySorted lt (map index slides)
  /\ Forall (fun slide => k <= index slide) slides.
Proof.
  induction elements as [| el elements IH]; intros k slides H; simpl in H.
  - inversion H; subst. split; constructor.
  - destruct (innerText el) as [t0 |]; [| discriminate].
    destruct (filter_candidates e (map_elements elements (S k)))
      as [kept | e'] eqn:Hrest; [| discriminate].
    destruct (IH (S k) kept Hrest) as [Hsorted Hlow].
    assert (Hlow' : Forall (fun slide => k <= index slide) kept).
    { eapply Forall_impl; [| exact Hlow]. simpl. intros; lia. }
    destruct (20 <? length (trim t0))%nat; inversion H; subst;
      [| now split].
    split.
    + simpl. constructor; [exact Hsorted |]. apply Forall_map.
      eapply Forall_impl; [| exact Hlow]. simpl. intros; lia.
    + constructor; [simpl; lia | exact Hlow'].
Qed.

Lemma filter_candidates_throws e elements : forall k,
  (exists e', filter_candidates e (map_elements elements k) = Throw e')
  <-> exists el, In el elements /\ innerText el = None.
Proof.
  induction elements as [| el elements IH]; intros k; simpl.
  - split; [intros [e' H]; discriminate | intros [el [[] _]]].
  - destruct (innerText el) as [t0 |] eqn:Htext.
    + specialize (IH (S k)).
      destruct (filter_candidates e (map_elements elements (S k)))
        as [kept | e'] eqn:Hrest.
      * split.
        -- intros [e' H]. destruct (20 <? length (trim t0))%nat; discriminate.
        -- intros [el' [[<- | Hin] Hnone]]; [congruence |].
           destruct (proj2 IH) as [e' He']; [now exists el' | discriminate].
      * split; [| intros _; now exists e'].
        intros _. destruct (proj1 IH) as [el' [Hin Hnone]]; [now exists e' |].
        exists el'. split; [now right | exact Hnone].
    + split; [| intros _; now exists e].
      intros _. exists el. split; [now left | exact Htext].
Qed.

Lemma filter_candidates_error e e' candidates :
  filter_candidates e candidates = Throw e' -> e' = e.
Proof.
  induction candidates as [| c candidates IH]; simpl; [discriminate |].
  destruct (candidate_text c) as [t |]; [| now inversion 1].
  destruct (filter_candidates e candidates) as [kept | e''].
  - destruct (20 <? length (trim t))%nat; discriminate.
  - intros H. inversion H; subst. now apply IH.
Qed.

(** X1: when a pattern wins, the slides returned are exactly the elements of
    that pattern whose trimmed text is longer than 20 code units: a slide
    with text t and index k is returned if and only if the k-th matched
    element has text t and t is long enough.  The index fields are strictly
    increasing, so the slides come in document order. *)
Theorem segment_returns_the_long_elements env page pre s post slides :
  slideSelectors = pre ++ s :: post ->
  (forall s', In s' pre -> querySelectorAll page s' = []) ->
  querySelectorAll page s <> [] ->
  segment env page = Ok slides ->
  (forall t k,
     In {| text := t; index := k |} slides
     <-> exists el,
           nth_error (querySelectorAll page s) k = Some el
           /\ innerText el = Some t /\ 20 < length (trim t))
  /\ StronglySorted lt (map index slides).
Proof.
  intros Hsplit Hpre Hs Hseg.
  rewrite (@segment_first_match env page pre s post Hsplit Hpre Hs) in Hseg.
  unfold apply_pattern in Hseg. split.
  - intros t k. rewrite (filter_candidates_members _ _ _ Hseg t k). simpl.
    split.
    + intros [j [el [-> Hr]]]. now exists el.
    + intros [el Hr]. now exists k, el.
  - exact (proj1 (filter_candidates_sorted _ _ _ Hseg)).
Qed.

Lemma segment_returns_the_long_elements_witness :
  querySelectorAll three_boxes_page SelClassSlide <> []
  /\ (In {| text := letters 100; index := 2 |}
        [ {| text := letters 25; index := 0 |};
          {| text := letters 100; index := 2 |} ]
      <-> exists el,
            nth_error (querySelectorAll three_boxes_page SelClassSlide) 2 = Some el
            /\ innerText el = Some (letters 100)
            /\ 20 < length (trim (letters 100))).
Proof.
  split; [discriminate |].
  refine (proj1 (@segment_returns_the_long_elements (calm_env three_boxes_page)
                   three_boxes_page [SelSection] SelClassSlide
                   [SelClassPage; SelArticle; SelSwiperSlide] _
                   eq_refl _ _ eq_refl) (letters 100) 2).
  - intros s' [<- | []]. reflexivity.
  - discriminate.
Defined.

(** X2: when a pattern wins, segmentation throws exactly when an element
    matched by that pattern has no [innerText], however long the texts of the
    others are, and the error is then the TypeError of [undefined.trim()];
    in the fallback case, when no pattern matches, it throws exactly when
    [document.body] is null, and the error is then the TypeError of reading
    [innerText] of null. *)
Theorem segment_throws_on_undefined_text env page :
  (forall pre s post,
     slideSelectors = pre ++ s :: post ->
     (forall s', In s' pre -> querySelectorAll page s' = []) ->
     querySelectorAll page s <> [] ->
     ((exists e, segment env page = Throw e)
      <-> exists el, In el (querySelectorAll page s) /\ innerText el = None)
     /\ forall e, segment env page = Throw e -> e = type_error env TrimOfUndefined)
  /\ ((forall s, In s slideSelectors -> querySelectorAll page s = []) ->
      ((exists e, segment env page = Throw e) <-> body page = None)
      /\ forall e, segment env page = Throw e ->
                   e = type_error env InnerTextOfNull).
Proof.
  split.
  - intros pre s post Hsplit Hpre Hs.
    rewrite (@segment_first_match env page pre s post Hsplit Hpre Hs).
    unfold apply_pattern. split.
    + apply filter_candidates_throws.
    + intros e. apply filter_candidates_error.
  - intros Hnone. rewrite (@segment_no_match env page Hnone).
    destruct (body page) as [b |]; split.
    + split; [intros [e H] |]; discriminate.
    + discriminate.
    + split; [reflexivity | intros _; eauto].
    + intros e H. now inversion H.
Qed.

Lemma segment_throws_on_undefined_text_witness :
  querySelectorAll svg_page SelClassSlide <> []
  /\ ((exists e, segment (calm_env svg_page) svg_page = Throw e)
      <-> exists el, In el (querySelectorAll svg_page SelClassSlide)
                     /\ innerText el = None)
  /\ ((exists e, segment (calm_env bodiless_page) bodiless_page = Throw e)
      <-> body bodiless_page = None).
Proof.
  split; [discriminate |]. split.
  - refine (proj1 (proj1 (segment_throws_on_undefined_text (calm_env svg_page)
                            svg_page)
                     [SelSection] SelClassSlide
                     [SelClassPage; SelArticle; SelSwiperSlide] eq_refl _ _)).
    + intros s' [<- | []]. reflexivity.
    + discriminate.
  - refine (proj1 (proj2 (segment_throws_on_undefined_text
                            (calm_env bodiless_page) bodiless_page) _)).
    intros s _. reflexivity.
Defined.

(** ** The first failure decides the answer *)

Lemma batch_failure_run env req failure :
  truthy (url req) = true ->
  batch_failure env req = Some failure ->
  snd (analyze_slides_batch env req) = failure_outcome env msg_batch_failed failure
  /\ generate_calls (fst (analyze_slides_batch env req)) = []
  /\ (snd failure = false ->
      close_calls (browser_events (fst (analyze_slides_batch env req))) = 0).
Proof.
  intros Hurl. unfold analyze_slides_batch, batch_failure, failure_outcome.
  rewrite Hurl.
  unfold analyze_slides_batch_try, analyze_slides_batch_catch, render_slides,
    load_and_segment, try_catch, bind, log_template, launch_browser,
    close_if_open, close_browser, await, finish, step. cbn.
  destruct (to_string_throws (url req) || (to_string_throws (estimate req) || false));
    cbn; [intros H; inversion H; subst; cbn; repeat split |].
  destruct (launch env) as [b | e]; cbn;
    [| intros H; inversion H; subst; cbn; repeat split].
  destruct (newPage env) as [[] | e]; cbn;
    [| intros H; inversion H; subst; cbn;
       destruct (close env InCatch); cbn; repeat split; discriminate].
  destruct (goto env (url req)) as [[] | e]; cbn;
    [| intros H; inversion H; subst; cbn;
       destruct (close env InCatch); cbn; repeat split; discriminate].
  destruct (extraction env) as [slides | e]; cbn;
    [| intros H; inversion H; subst; cbn;
       destruct (close env InCatch); cbn; repeat split; discriminate].
  destruct (close env AfterExtraction) as [[] | e]; cbn;
    [discriminate |].
  intros H; inversion H; subst; cbn.
  destruct (close env InCatch); cbn; repeat split; discriminate.
Qed.

Lemma batch_failure_none env req :
  batch_failure env req = None ->
  existsb to_string_throws [url req; estimate req] = false
  /\ is_ok (launch env) = true /\ is_ok (newPage env) = true
  /\ is_ok (goto env (url req)) = true
  /\ is_ok (close env AfterExtraction) = true
  /\ exists slides, extraction env = Ok slides.
Proof.
  unfold batch_failure, step.
  destruct (existsb to_string_throws [url req; estimate req]); [discriminate |].
  destruct (launch env); [| discriminate].
  destruct (newPage env); [| discriminate].
  destruct (goto env (url req)); [| discriminate].
  destruct (extraction env) as [slides |]; [| discriminate].
  destruct (close env AfterExtraction); [| discriminate].
  intros _. repeat split. now exists slides.
Qed.

Lemma batch_failure_none_renders env req :
  truthy (url req) = true ->
  batch_failure env req = None ->
  rendering_succeeds env req = true /\ exists slides, extraction env = Ok slides.
Proof.
  intros Hurl Hnone.
  destruct (batch_failure_none _ _ Hnone) as [Hlog [Hl [Hn [Hg [Hc Hext]]]]].
  split; [| exact Hext]. unfold rendering_succeeds.
  now rewrite Hurl, Hlog, Hl, Hn, Hg, Hc.
Qed.

(** X3: in the batch handler the first step to throw decides the answer.  With
    a truthy url, if the first failing step among start line, launch,
    newPage, goto, evaluate and close throws e, the generator is never
    called; the answer is 500 with the batch error text and the message of e
    when the browser was not open yet at that step, or when the catch block's
    call to close completes. *)
Theorem batch_first_failure_is_reported env req e held :
  truthy (url req) = true ->
  batch_failure env req = Some (e, held) ->
  (held = true -> is_ok (close env InCatch) = true) ->
  snd (analyze_slides_batch env req)
  = Responded {| status := 500;
                 payload := ErrorBody msg_batch_failed (Some (message e)) |}
  /\ generate_calls (fst (analyze_slides_batch env req)) = [].
Proof.
  intros Hurl Hfail Hclose.
  destruct (batch_failure_run env req Hurl Hfail) as [Hout [Hcalls _]].
  split; [| exact Hcalls]. rewrite Hout. unfold failure_outcome. simpl.
  destruct held; [| reflexivity].
  destruct (close env InCatch); [reflexivity |].
  specialize (Hclose eq_refl). discriminate.
Qed.

Lemma batch_first_failure_is_reported_witness :
  truthy (url plain_request) = true
  /\ batch_failure unreachable_env plain_request
     = Some ({| message := [8]%N |}, true)
  /\ snd (analyze_slides_batch unreachable_env plain_request)
     = Responded {| status := 500;
                    payload := ErrorBody msg_batch_failed (Some [8]%N) |}.
Proof.
  split; [reflexivity |]. split; [reflexivity |].
  exact (proj1 (@batch_first_failure_is_reported unreachable_env plain_request
                  {| message := [8]%N |} true eq_refl eq_refl
                  (fun _ => eq_refl))).
Defined.

(** X4: every 200 answer of the batch endpoint is consistent: generatedCount
    is the number of narrations, it is min(slideCount, 50), and slideCount is
    the number of slides the segmenter returned for the page. *)
Theorem batch_success_counts_agree env req ns sc gc :
  snd (analyze_slides_batch env req)
  = Responded {| status := 200; payload := BatchOk ns sc gc |} ->
  gc = length ns /\ gc = Nat.min sc 50
  /\ exists slides, extraction env = Ok slides /\ sc = length slides.
Proof.
  intros Hresp.
  destruct (truthy (url req)) eqn:Hurl.
  2: { unfold analyze_slides_batch in Hresp. rewrite Hurl in Hresp.
       discriminate. }
  destruct (batch_failure env req) as [failure |] eqn:Hfail.
  - destruct (batch_failure_run env req Hurl Hfail) as [Hout _].
    rewrite Hout in Hresp. unfold failure_outcome in Hresp.
    destruct (snd failure); [destruct (close env InCatch) |]; discriminate.
  - destruct (batch_failure_none_renders env req Hurl Hfail)
      as [Hok [slides Hext]].
    rewrite (analyze_slides_batch_run _ _ Hok Hext) in Hresp. simpl in Hresp.
    inversion Hresp; subst.
    split; [reflexivity |]. split; [apply batch_narrations_length |].
    now exists slides.
Qed.

Lemma batch_success_counts_agree_witness :
  snd (analyze_slides_batch (calm_env (deck_page 3)) plain_request)
  = Responded {| status := 200;
                 payload := BatchOk [ [98]%N; [98; 98]%N; [98; 98; 98]%N ] 3 3 |}
  /\ 3 = Nat.min 3 50.
Proof.
  assert (H : snd (analyze_slides_batch (calm_env (deck_page 3)) plain_request)
              = Responded {| status := 200;
                             payload := BatchOk
                               [ [98]%N; [98; 98]%N; [98; 98; 98]%N ] 3 3 |})
    by reflexivity.
  split; [exact H |].
  exact (proj1 (proj2 (batch_success_counts_agree _ _ H))).
Defined.

(** ** Order and rhythm of the generator calls *)

Lemma generate_calls_numbers env len slides : forall i,
  map fst (generate_calls (events_from env len i slides)) = seq i (length slides).
Proof.
  induction slides as [| s slides IH]; intros i; simpl; [reflexivity |].
  rewrite generate_calls_app, generate_calls_iteration. simpl.
  now rewrite IH.
Qed.

(** X5: in a batch run that reaches the loop the generator is called once per
    processed slide, one slide after the other from the first: the loop
    counters of the calls are 0, 1, ..., min(number of slides, 50) - 1, so
    there are never more than 50 calls. *)
Theorem generator_is_called_in_slide_order env req slides :
  rendering_succeeds env req = true ->
  extraction env = Ok slides ->
  map fst (generate_calls (fst (analyze_slides_batch env req)))
  = seq 0 (Nat.min (length slides) 50)
  /\ length (generate_calls (fst (analyze_slides_batch env req))) <= 50.
Proof.
  intros Hok Hext.
  assert (Hcalls : map fst (generate_calls (fst (analyze_slides_batch env req)))
                   = seq 0 (Nat.min (length slides) 50)).
  { rewrite (generate_calls_batch _ _ Hok Hext). unfold batch_events.
    rewrite generate_calls_numbers, length_firstn. f_equal. apply Nat.min_comm. }
  split; [exact Hcalls |].
  rewrite <- (length_map fst), Hcalls, length_seq. lia.
Qed.

Lemma generator_is_called_in_slide_order_witness :
  rendering_succeeds (calm_env (deck_page 51)) plain_request = true
  /\ length (generate_calls
               (fst (analyze_slides_batch (calm_env (deck_page 51))
                       plain_request))) <= 50.
Proof.
  split; [reflexivity |].
  refine (proj2 (@generator_is_called_in_slide_order (calm_env (deck_page 51))
                   plain_request
                   (map (fun k => {| text := letters 30; index := k |})
                      (seq 0 51))
                   eq_refl _)).
  vm_compute. reflexivity.
Defined.

Lemma pacing_app tr tr' : pacing (tr ++ tr') = pacing tr ++ pacing tr'.
Proof.
  induction tr as [| ev tr IH]; simpl; [reflexivity |].
  destruct ev; simpl; now rewrite ?IH.
Qed.

Lemma pacing_events_from env len slides : forall i,
  pacing (events_from env len i slides) = paces_from env len i slides.
Proof.
  induction slides as [| s slides IH]; intros i; simpl; [reflexivity |].
  rewrite pacing_app, pacing_iteration, IH. reflexivity.
Qed.

Lemma pacing_render_events env req slides :
  rendering_succeeds env req = true ->
  pacing (render_events env req slides) = [Pause 3000].
Proof.
  unfold rendering_succeeds, render_events, opened.
  rewrite !andb_true_iff. intros [[[[_ Hl] _] _] _].
  now destruct (launch env).
Qed.

(** X6: the rhythm of a batch run that reaches the loop.  After the 3000ms
    settling wait come, slide by slide, the call to the generator and then a
    500ms wait if and only if that call succeeded; this holds for the last
    slide as well, and nothing else waits or calls. *)
Theorem batch_rhythm env req slides :
  rendering_succeeds env req = true ->
  extraction env = Ok slides ->
  pacing (fst (analyze_slides_batch env req))
  = Pause 3000 :: paces_from env (length slides) 0 (firstn 50 slides).
Proof.
  intros Hok Hext. rewrite (analyze_slides_batch_run _ _ Hok Hext). simpl.
  rewrite !pacing_app, (@pacing_render_events env req slides Hok). unfold batch_events.
  rewrite pacing_events_from. simpl. now rewrite app_nil_r.
Qed.

Lemma batch_rhythm_witness :
  rendering_succeeds (calm_env (deck_page 2)) plain_request = true
  /\ pacing (fst (analyze_slides_batch (calm_env (deck_page 2)) plain_request))
     = [Pause 3000; Call 0 true; Pause 500; Call 1 true; Pause 500].
Proof.
  split; [reflexivity |].
  exact (@batch_rhythm (calm_env (deck_page 2)) plain_request
           [ {| text := letters 30; index := 0 |};
             {| text := letters 30; index := 1 |} ] eq_refl eq_refl).
Defined.

(** ** No generator call before the browser is closed *)






(** The traces the check turns down: a call to the generator with no browser
    ever opened, one while the browser is open, and one after a call to close
    that threw, even when a later call to close completed. *)
Example generator_waits_for_close_rejects :
  generator_waits_for_close NeverOpened [EvGenerate 0 [] true] = false
  /\ generator_waits_for_close NeverOpened
       [EvLaunch (Some 1); EvGenerate 0 [] true; EvClose 1 true] = false
  /\ generator_waits_for_close NeverOpened
       [EvLaunch (Some 1); EvClose 1 false; EvClose 1 true;
        EvGenerate 0 [] true] = false.
Proof. repeat split. Qed.

(** ** The single-slide handler *)

Arguments single_prompt : simpl never.

Lemma single_failure_run env req failure :
  truthy (url req) = true ->
  single_failure env req = Some failure ->
  snd (analyze_slide env req) = failure_outcome env msg_single_failed failure.
Proof.
  intros Hurl. unfold analyze_slide, single_failure, failure_outcome.
  rewrite Hurl.
  unfold analyze_slide_try, analyze_slide_catch, try_catch, bind, log_template,
    launch_browser, close_if_open, close_browser, await, finish, step. cbn.
  destruct (to_string_throws (url req) || false); cbn;
    [intros H; inversion H; subst; reflexivity |].
  destruct (launch env) as [b | e]; cbn;
    [| intros H; inversion H; subst; reflexivity].
  destruct (newPage env) as [[] | e]; cbn;
    [| intros H; inversion H; subst; cbn;
       destruct (close env InCatch); reflexivity].
  destruct (goto env (url req)) as [[] | e]; cbn;
    [| intros H; inversion H; subst; cbn;
       destruct (close env InCatch); reflexivity].
  destruct (page_text env) as [textContent | e]; cbn;
    [| intros H; inversion H; subst; cbn;
       destruct (close env InCatch); reflexivity].
  destruct (close env AfterExtraction) as [[] | e]; cbn;
    [| intros H; inversion H; subst; cbn;
       destruct (close env InCatch); reflexivity].
  destruct (generateContent env 0 (single_prompt textContent))
    as [result | e]; cbn; [discriminate |].
  intros H; inversion H; subst; reflexivity.
Qed.

(** X8: in the single-slide handler the first step to throw decides the
    answer, and a failure of the generator is fatal here.  With a truthy url,
    if the first failing step among start line, launch, newPage, goto,
    evaluate (which throws also when the document has no body), close and
    generateContent throws e, the answer is 500 with the
    single-slide error text and the message of e, when the browser was not
    held at that step (which includes the generator call) or when the catch
    block's call to close completes. *)
Theorem single_first_failure_is_reported env req e held :
  truthy (url req) = true ->
  single_failure env req = Some (e, held) ->
  (held = true -> is_ok (close env InCatch) = true) ->
  snd (analyze_slide env req)
  = Responded {| status := 500;
                 payload := ErrorBody msg_single_failed (Some (message e)) |}.
Proof.
  intros Hurl Hfail Hclose.
  rewrite (single_failure_run env req Hurl Hfail). unfold failure_outcome. simpl.
  destruct held; [| reflexivity].
  destruct (close env InCatch); [reflexivity |].
  specialize (Hclose eq_refl). discriminate.
Qed.

Lemma single_first_failure_is_reported_witness :
  truthy (url plain_request) = true
  /\ single_failure (with_generator (calm_env blank_page) (failing_at 0))
       plain_request
     = Some ({| message := [5]%N |}, false)
  /\ snd (analyze_slide (with_generator (calm_env blank_page) (failing_at 0))
            plain_request)
     = Responded {| status := 500;
                    payload := ErrorBody msg_single_failed (Some [5]%N) |}.
Proof.
  split; [reflexivity |]. split; [reflexivity |].
  refine (@single_first_failure_is_reported
            (with_generator (calm_env blank_page) (failing_at 0)) plain_request
            {| message := [5]%N |} false eq_refl eq_refl _).
  discriminate.
Defined.

Lemma analyze_slide_run env req b page doc result :
  truthy (url req) = true ->
  to_string_throws (url req) = false ->
  launch env = Ok b ->
  is_ok (newPage env) = true ->
  is_ok (goto env (url req)) = true ->
  evaluate env = Ok page ->
  body page = Some doc ->
  is_ok (close env AfterExtraction) = true ->
  generateContent env 0 (single_prompt (body_innerText_cleaned doc)) = Ok result ->
  analyze_slide env req
  = ([ EvLog (LogSingleStart (url req)); EvLaunch (Some b); EvNewPage true;
       EvGoto (url req) true; EvDelay 2000; EvEvaluate true; EvClose b true;
       EvLog (LogTextDone (length (body_innerText_cleaned doc)));
       EvGenerate 0
         (single_prompt_head ++ firstn 2000 (body_innerText_cleaned doc)
            ++ single_prompt_tail) true;
       EvLog (LogNarrationDone (length (trim result))) ],
     Responded {| status := 200;
                  payload := SingleOk (trim result)
                               (length (body_innerText_cleaned doc))
                               (length (trim result)) |}).
Proof.
  intros Hurl Hlog Hlaunch Hnew Hgoto Hpage Hbody Hclose Hgen.
  apply is_ok_unit in Hnew, Hgoto, Hclose.
  assert (Htext : page_text env = Ok (body_innerText_cleaned doc)).
  { unfold page_text. now rewrite Hpage, Hbody. }
  unfold analyze_slide. rewrite Hurl.
  unfold analyze_slide_try, analyze_slide_catch, try_catch, bind, log_template,
    launch_browser, close_if_open, close_browser, await, finish. cbn.
  rewrite Hlog, Hlaunch. cbn. rewrite Hnew, Hgoto, Htext. cbn.
  rewrite Hclose. cbn. rewrite Hgen. reflexivity.
Qed.

(** X9: when every step of the single-slide handler goes through (the
    document having a body), the events
    are launch, newPage, goto, a 2000ms wait, evaluate, close and then one
    call to the generator, and the answer is 200 with the generated text
    trimmed as narration, its length as narrationLength, and as textLength
    the length of the whole cleaned page text, of which the prompt carries
    the first 2000 code units only. *)
Theorem single_slide_success env req b page doc result :
  truthy (url req) = true ->
  to_string_throws (url req) = false ->
  launch env = Ok b ->
  is_ok (newPage env) = true ->
  is_ok (goto env (url req)) = true ->
  evaluate env = Ok page ->
  body page = Some doc ->
  is_ok (close env AfterExtraction) = true ->
  generateContent env 0 (single_prompt (body_innerText_cleaned doc)) = Ok result ->
  analyze_slide env req
  = ([ EvLog (LogSingleStart (url req)); EvLaunch (Some b); EvNewPage true;
       EvGoto (url req) true; EvDelay 2000; EvEvaluate true; EvClose b true;
       EvLog (LogTextDone (length (body_innerText_cleaned doc)));
       EvGenerate 0
         (single_prompt_head ++ firstn 2000 (body_innerText_cleaned doc)
            ++ single_prompt_tail) true;
       EvLog (LogNarrationDone (length (trim result))) ],
     Responded {| status := 200;
                  payload := SingleOk (trim result)
                               (length (body_innerText_cleaned doc))
                               (length (trim result)) |}).
Proof.
  intros Hurl Hlog Hlaunch Hnew Hgoto Hpage Hbody Hclose Hgen.
  now apply analyze_slide_run with page.
Qed.

Lemma single_slide_success_witness :
  truthy (url plain_request) = true
  /\ evaluate (calm_env (deck_page 100)) = Ok (deck_page 100)
  /\ snd (analyze_slide (calm_env (deck_page 100)) plain_request)
     = Responded {| status := 200; payload := SingleOk [98]%N 3000 1 |}.
Proof.
  split; [reflexivity |]. split; [reflexivity |].
  rewrite (@single_slide_success (calm_env (deck_page 100)) plain_request 1
             (deck_page 100)
             {| body_innerText := letters 3000;
                body_innerText_cleaned := letters 3000 |}
             [32; 98; 10]%N
             eq_refl eq_refl eq_refl eq_refl eq_refl eq_refl eq_refl eq_refl
             eq_refl).
  reflexivity.
Defined.

(** X10: when an error strikes while the browser is held and the catch
    block's call to close throws as well, neither handler sends a response:
    the handler's promise is rejected with the error of close, not with the
    error that led to the catch block. *)
Theorem failed_cleanup_sends_no_response env req e e' :
  truthy (url req) = true ->
  close env InCatch = Throw e' ->
  (single_failure env req = Some (e, true) ->
   snd (analyze_slide env req) = Rejected e')
  /\ (batch_failure env req = Some (e, true) ->
      snd (analyze_slides_batch env req) = Rejected e').
Proof.
  intros Hurl Hclose. split; intros Hfail.
  - rewrite (single_failure_run env req Hurl Hfail). unfold failure_outcome.
    simpl. now rewrite Hclose.
  - rewrite (proj1 (batch_failure_run env req Hurl Hfail)).
    unfold failure_outcome. simpl. now rewrite Hclose.
Qed.

Lemma failed_cleanup_sends_no_response_witness :
  truthy (url plain_request) = true
  /\ close (closing_fails blank_page true true) InCatch = Throw {| message := [7]%N |}
  /\ batch_failure (closing_fails blank_page true true) plain_request
     = Some ({| message := [6]%N |}, true)
  /\ snd (analyze_slides_batch (closing_fails blank_page true true) plain_request)
     = Rejected {| message := [7]%N |}.
Proof.
  split; [reflexivity |]. split; [reflexivity |]. split; [reflexivity |].
  exact (proj2 (@failed_cleanup_sends_no_response
                  (closing_fails blank_page true true) plain_request
                  {| message := [6]%N |} {| message := [7]%N |}
                  eq_refl eq_refl) eq_refl).
Defined.

(** ** When a browser is launched *)

Lemma analyze_slide_launch_attempted env req :
  launch_attempted (fst (analyze_slide env req))
  = truthy (url req) && negb (to_string_throws (url req)).
Proof.
  unfold analyze_slide.
  destruct (truthy (url req)); [| reflexivity].
  unfold analyze_slide_try, analyze_slide_catch, try_catch, bind, log_template,
    launch_browser, close_if_open, close_browser, await, finish. cbn.
  rewrite orb_false_r.
  destruct (to_string_throws (url req)); cbn; [reflexivity |].
  destruct (launch env); cbn; [| reflexivity].
  destruct (newPage env); cbn;
    [| destruct (close env InCatch); reflexivity].
  destruct (goto env (url req)); cbn;
    [| destruct (close env InCatch); reflexivity].
  destruct (page_text env); cbn;
    [| destruct (close env InCatch); reflexivity].
  destruct (close env AfterExtraction); cbn;
    [| destruct (close env InCatch); reflexivity].
  match goal with
  | |- context [generateContent env 0 ?prompt] =>
      destruct (generateContent env 0 prompt); reflexivity
  end.
Qed.

Lemma analyze_slides_batch_launch_attempted env req :
  launch_attempted (fst (analyze_slides_batch env req))
  = truthy (url req)
    && negb (to_string_throws (url req) || to_string_throws (estimate req)).
Proof.
  unfold analyze_slides_batch.
  destruct (truthy (url req)); [| reflexivity].
  unfold analyze_slides_batch_try, analyze_slides_batch_catch, render_slides,
    load_and_segment, try_catch, bind, log_template, launch_browser,
    close_if_open, close_browser, await, finish. cbn.
  rewrite orb_false_r.
  destruct (to_string_throws (url req) || to_string_throws (estimate req));
    cbn; [reflexivity |].
  destruct (launch env); cbn; [| reflexivity].
  destruct (newPage env); cbn;
    [| destruct (close env InCatch); reflexivity].
  destruct (goto env (url req)); cbn;
    [| destruct (close env InCatch); reflexivity].
  destruct (extraction env); cbn;
    [| destruct (close env InCatch); reflexivity].
  destruct (close env AfterExtraction); cbn;
    [| destruct (close env InCatch); reflexivity].
  match goal with
  | |- context [narrate_slides env ?slides ?st] =>
      rewrite (narrate_slides_run env slides st)
  end.
  reflexivity.
Qed.

(** X11: a browser launch is attempted exactly for the requests whose url is
    truthy and whose start line can be written, whatever the type of the url:
    the url need not be a string.  For the single-slide endpoint the start
    line needs the url to convert to a string, for the batch endpoint the url
    and the slideCount. *)
Theorem launch_is_attempted_for_any_truthy_url env req :
  (launch_attempted (fst (analyze_slide env req)) = true
   <-> truthy (url req) = true /\ to_string_throws (url req) = false)
  /\ (launch_attempted (fst (analyze_slides_batch env req)) = true
      <-> truthy (url req) = true /\ to_string_throws (url req) = false
          /\ to_string_throws (estimate req) = false).
Proof.
  rewrite analyze_slide_launch_attempted, analyze_slides_batch_launch_attempted.
  rewrite !andb_true_iff, !negb_true_iff, orb_false_iff. tauto.
Qed.

Lemma launch_is_attempted_for_any_truthy_url_witness :
  truthy (url true_url_request) = true
  /\ launch_attempted (fst (analyze_slide (calm_env blank_page) true_url_request))
     = true
  /\ launch_attempted (fst (analyze_slide (calm_env blank_page) odd_url_request))
     = false.
Proof.
  split; [reflexivity |]. split.
  - apply (proj1 (launch_is_attempted_for_any_truthy_url (calm_env blank_page)
                    true_url_request)).
    split; reflexivity.
  - reflexivity.
Defined.

(** ** How much of a text reaches the generator *)

(** X12: a prompt carries exactly the first 1500 code units of a slide text
    (2000 of the page text for the single-slide prompt): two texts give the
    same prompt if and only if they agree on that prefix, and the prompt is
    longer than the prompt of the empty text by min(1500, length) (by
    min(2000, length)) code units. *)
Theorem prompt_carries_a_bounded_prefix r ordinal t t' :
  (prompt_for r ordinal t = prompt_for r ordinal t'
   <-> firstn 1500 t = firstn 1500 t')
  /\ (single_prompt t = single_prompt t' <-> firstn 2000 t = firstn 2000 t')
  /\ length (prompt_for r ordinal t)
     = length (prompt_for r ordinal []) + Nat.min 1500 (length t)
  /\ length (single_prompt t)
     = length (single_prompt []) + Nat.min 2000 (length t).
Proof.
  unfold prompt_for, single_prompt, substring0. repeat split.
  - intros H. repeat apply app_inv_head in H. now apply app_inv_tail in H.
  - intros H. now rewrite H.
  - intros H. apply app_inv_head in H. now apply app_inv_tail in H.
  - intros H. now rewrite H.
  - rewrite !length_app, length_firstn, firstn_nil. simpl length. lia.
  - rewrite !length_app, length_firstn, firstn_nil. simpl length. lia.
Qed.

(** ** The fallback page and pages with short elements only *)

(** X13: when no pattern matches and the document has a body, a batch run
    that reaches the loop narrates the whole body text as a single slide: one
    call to the generator, with the prompt of ordinal 1 in role first, and a
    200 answer with one narration, slideCount 1 and generatedCount 1, however
    short the text. *)
Theorem unmatched_page_is_one_first_slide env req page b :
  rendering_succeeds env req = true ->
  evaluate env = Ok page ->
  (forall s, In s slideSelectors -> querySelectorAll page s = []) ->
  body page = Some b ->
  generate_calls (fst (analyze_slides_batch env req))
  = [ (0, prompt_for First 1 (body_innerText b)) ]
  /\ exists n,
       snd (analyze_slides_batch env req)
       = Responded {| status := 200; payload := BatchOk [n] 1 1 |}.
Proof.
  intros Hok Hpage Hnone Hbody.
  assert (Hext : extraction env = Ok [whole_page b]).
  { unfold extraction.
    now rewrite Hpage, (@segment_no_match env page Hnone), Hbody. }
  rewrite (generate_calls_batch _ _ Hok Hext).
  rewrite (analyze_slides_batch_run _ _ Hok Hext).
  split.
  - unfold batch_events. simpl.
    rewrite generate_calls_app, generate_calls_iteration. reflexivity.
  - eexists. reflexivity.
Qed.

Lemma unmatched_page_is_one_first_slide_witness :
  rendering_succeeds (calm_env blank_page) plain_request = true
  /\ generate_calls (fst (analyze_slides_batch (calm_env blank_page) plain_request))
     = [ (0, prompt_for First 1 []) ].
Proof.
  split; [reflexivity |].
  refine (proj1 (@unmatched_page_is_one_first_slide (calm_env blank_page)
                   plain_request blank_page
                   {| body_innerText := []; body_innerText_cleaned := [] |}
                   eq_refl eq_refl _ eq_refl)).
  intros s _. reflexivity.
Defined.

Lemma filter_candidates_all_short e elements : forall k,
  Forall (fun el => exists t, innerText el = Some t /\ length (trim t) <= 20)
    elements ->
  filter_candidates e (map_elements elements k) = Ok [].
Proof.
  induction elements as [| el elements IH]; intros k Hshort; simpl;
    [reflexivity |].
  inversion Hshort as [| ? ? [t [Ht Hlen]] Hrest]; subst.
  rewrite Ht, (IH (S k) Hrest).
  destruct (Nat.ltb_spec 20 (length (trim t))); [lia | reflexivity].
Qed.

(** X14: when the winning pattern matches elements whose trimmed texts all
    have at most 20 code units, the segmenter returns no slide at all (it
    does not fall back to the whole page), and a batch run that reaches the
    loop answers 200 with no narration, slideCount 0 and generatedCount 0,
    without calling the generator. *)
Theorem short_elements_give_an_empty_batch env req page pre s post :
  rendering_succeeds env req = true ->
  evaluate env = Ok page ->
  slideSelectors = pre ++ s :: post ->
  (forall s', In s' pre -> querySelectorAll page s' = []) ->
  querySelectorAll page s <> [] ->
  Forall (fun el => exists t, innerText el = Some t /\ length (trim t) <= 20)
    (querySelectorAll page s) ->
  segment env page = Ok []
  /\ snd (analyze_slides_batch env req)
     = Responded {| status := 200; payload := BatchOk [] 0 0 |}
  /\ generate_calls (fst (analyze_slides_batch env req)) = [].
Proof.
  intros Hok Hpage Hsplit Hpre Hs Hshort.
  assert (Hseg : segment env page = Ok []).
  { rewrite (@segment_first_match env page pre s post Hsplit Hpre Hs).
    unfold apply_pattern. now apply filter_candidates_all_short. }
  assert (Hext : extraction env = Ok []).
  { unfold extraction. now rewrite Hpage. }
  split; [exact Hseg |].
  rewrite (generate_calls_batch _ _ Hok Hext).
  rewrite (analyze_slides_batch_run _ _ Hok Hext).
  split; reflexivity.
Qed.

Lemma short_elements_give_an_empty_batch_witness :
  rendering_succeeds (calm_env badges_page) plain_request = true
  /\ querySelectorAll badges_page SelClassSlide <> []
  /\ snd (analyze_slides_batch (calm_env badges_page) plain_request)
     = Responded {| status := 200; payload := BatchOk [] 0 0 |}.
Proof.
  split; [reflexivity |]. split; [discriminate |].
  refine (proj1 (proj2 (@short_elements_give_an_empty_batch
                          (calm_env badges_page) plain_request badges_page
                          [SelSection] SelClassSlide
                          [SelClassPage; SelArticle; SelSwiperSlide]
                          eq_refl eq_refl eq_refl _ _ _))).
  - intros s' [<- | []]. reflexivity.
  - discriminate.
  - repeat constructor.
    + exists (letters 5). split; [reflexivity | simpl; lia].
    + exists (letters 20). split; [reflexivity | vm_compute; lia].
Defined.

(** ** Trimming *)

Lemma trimStart_clean s : starts_clean (trimStart s).
Proof.
  induction s as [| c s IH]; simpl; [exact I |].
  destruct (is_white_space c) eqn:Hc; [exact IH | exact Hc].
Qed.

Lemma trimStart_of_clean s : starts_clean s -> trimStart s = s.
Proof. destruct s as [| c s]; simpl; [reflexivity | now intros ->]. Qed.

Lemma trimStart_suffix s : exists p, s = p ++ trimStart s.
Proof.
  induction s as [| c s [p IH]]; simpl; [now exists [] |].
  destruct (is_white_space c); [| now exists []].
  exists (c :: p). simpl. now rewrite <- IH.
Qed.

Lemma trimEnd_prefix s : exists q, s = trimEnd s ++ q.
Proof.
  unfold trimEnd. destruct (trimStart_suffix (rev s)) as [p Hp].
  exists (rev p). rewrite <- rev_app_distr, <- Hp. symmetry. apply rev_involutive.
Qed.

Lemma starts_clean_prefix u q : starts_clean (u ++ q) -> starts_clean u.
Proof. destruct u; simpl; auto. Qed.

Lemma trimEnd_idempotent s : trimEnd (trimEnd s) = trimEnd s.
Proof.
  unfold trimEnd. rewrite rev_involutive.
  now rewrite trimStart_of_clean by apply trimStart_clean.
Qed.

Lemma trim_starts_clean s : starts_clean (trim s).
Proof.
  unfold trim. destruct (trimEnd_prefix (trimStart s)) as [q Hq].
  apply starts_clean_prefix with q. rewrite <- Hq. apply trimStart_clean.
Qed.

Lemma trim_idempotent s : trim (trim s) = trim s.
Proof.
  unfold trim at 1. rewrite trimStart_of_clean by apply trim_starts_clean.
  unfold trim. apply trimEnd_idempotent.
Qed.

Lemma trim_fallback_narration ordinal :
  trim (fallback_narration ordinal) = fallback_narration ordinal.
Proof.
  unfold trim. rewrite trimStart_of_clean by reflexivity.
  unfold trimEnd, fallback_narration.
  rewrite !rev_app_distr, trimStart_of_clean by reflexivity.
  now rewrite <- !rev_app_distr, rev_involutive.
Qed.

Lemma narrations_from_trimmed env len slides : forall i,
  Forall (fun n => trim n = n) (narrations_from env len i slides).
Proof.
  induction slides as [| s slides IH]; intros i; simpl; constructor;
    [| apply IH].
  unfold slide_narration.
  destruct (generateContent env i (batch_prompt i len (text s)));
    [apply trim_idempotent | apply trim_fallback_narration].
Qed.

Lemma single_failure_none env req :
  single_failure env req = None ->
  to_string_throws (url req) = false
  /\ exists b page doc result,
       launch env = Ok b /\ is_ok (newPage env) = true
       /\ is_ok (goto env (url req)) = true /\ evaluate env = Ok page
       /\ body page = Some doc
       /\ is_ok (close env AfterExtraction) = true
       /\ generateContent env 0 (single_prompt (body_innerText_cleaned doc))
          = Ok result.
Proof.
  unfold single_failure, step, page_text. simpl existsb. rewrite orb_false_r.
  destruct (to_string_throws (url req)); [discriminate |].
  destruct (launch env) as [b |]; [| discriminate].
  destruct (newPage env); [| discriminate].
  destruct (goto env (url req)); [| discriminate].
  destruct (evaluate env) as [page |]; [| discriminate].
  destruct (body page) as [doc |] eqn:Hbody; [| discriminate].
  destruct (close env AfterExtraction); [| discriminate].
  destruct (generateContent env 0 (single_prompt (body_innerText_cleaned doc)))
    as [result |] eqn:Hgen; [| discriminate].
  intros _. split; [reflexivity |]. exists b, page, doc, result.
  repeat split; assumption.
Qed.

(** X15: every 200 answer of the single-slide endpoint is consistent:
    narrationLength is the length of the narration, the narration has no
    white space at either end (trimming it again changes nothing), and
    textLength is the length of the whole cleaned text of the document's
    body. *)
Theorem single_success_is_consistent env req narration tl nl :
  snd (analyze_slide env req)
  = Responded {| status := 200; payload := SingleOk narration tl nl |} ->
  nl = length narration
  /\ trim narration = narration
  /\ exists page doc,
       evaluate env = Ok page /\ body page = Some doc
       /\ tl = length (body_innerText_cleaned doc).
Proof.
  intros Hresp.
  destruct (truthy (url req)) eqn:Hurl.
  2: { unfold analyze_slide in Hresp. rewrite Hurl in Hresp. discriminate. }
  destruct (single_failure env req) as [failure |] eqn:Hfail.
  - rewrite (single_failure_run env req Hurl Hfail) in Hresp.
    unfold failure_outcome in Hresp.
    destruct (snd failure); [destruct (close env InCatch) |]; discriminate.
  - destruct (single_failure_none _ _ Hfail)
      as [Hlog [b [page [doc [result [Hl [Hn [Hg [Hp [Hb [Hc Hgen]]]]]]]]]]].
    rewrite (@analyze_slide_run env req b page doc result Hurl Hlog Hl Hn Hg
               Hp Hb Hc Hgen) in Hresp.
    simpl in Hresp. inversion Hresp; subst.
    split; [reflexivity |]. split; [apply trim_idempotent |].
    now exists page, doc.
Qed.

Lemma single_success_is_consistent_witness :
  snd (analyze_slide (calm_env (deck_page 100)) plain_request)
  = Responded {| status := 200; payload := SingleOk [98]%N 3000 1 |}
  /\ trim [98]%N = [98]%N.
Proof.
  assert (H : snd (analyze_slide (calm_env (deck_page 100)) plain_request)
              = Responded {| status := 200; payload := SingleOk [98]%N 3000 1 |})
    by (vm_compute; reflexivity).
  split; [exact H |].
  exact (proj1 (proj2 (single_success_is_consistent _ _ H))).
Defined.

(** X16: in every 200 answer of the batch endpoint each narration, generated
    or placeholder, has no white space at either end: trimming it again
    changes nothing. *)
Theorem batch_narrations_are_trimmed env req ns sc gc :
  snd (analyze_slides_batch env req)
  = Responded {| status := 200; payload := BatchOk ns sc gc |} ->
  Forall (fun n => trim n = n) ns.
Proof.
  intros Hresp.
  destruct (truthy (url req)) eqn:Hurl.
  2: { unfold analyze_slides_batch in Hresp. rewrite Hurl in Hresp.
       discriminate. }
  destruct (batch_failure env req) as [failure |] eqn:Hfail.
  - destruct (batch_failure_run env req Hurl Hfail) as [Hout _].
    rewrite Hout in Hresp. unfold failure_outcome in Hresp.
    destruct (snd failure); [destruct (close env InCatch) |]; discriminate.
  - destruct (batch_failure_none_renders env req Hurl Hfail)
      as [Hok [slides Hext]].
    rewrite (analyze_slides_batch_run _ _ Hok Hext) in Hresp. simpl in Hresp.
    inversion Hresp; subst. apply narrations_from_trimmed.
Qed.

Lemma batch_narrations_are_trimmed_witness :
  snd (analyze_slides_batch
         (with_generator (calm_env (deck_page 3)) (failing_at 1)) plain_request)
  = Responded {| status := 200;
                 payload := BatchOk [ [98]%N; fallback_narration 2; [98; 98; 98]%N ]
                              3 3 |}
  /\ Forall (fun n => trim n = n) [ [98]%N; fallback_narration 2; [98; 98; 98]%N ].
Proof.
  split; [reflexivity |].
  exact (@batch_narrations_are_trimmed
           (with_generator (calm_env (deck_page 3)) (failing_at 1))
           plain_request _ 3 3 eq_refl).
Defined.

(** ** The placeholder narration *)

Lemma uint_units_inj u : forall u', uint_units u = uint_units u' -> u = u'.
Proof.
  induction u; destruct u'; intros H; unfold digit_unit in H; cbn in H;
    try discriminate H; try reflexivity;
    injection H as H; f_equal; now apply IHu.
Qed.

Lemma string_of_nat_inj n m : string_of_nat n = string_of_nat m -> n = m.
Proof.
  unfold string_of_nat. intros H.
  apply DecimalNat.Unsigned.to_uint_inj. now apply uint_units_inj.
Qed.

(** X17: the placeholder narration tells which slide failed: different
    ordinals give different placeholders. *)
Theorem fallback_names_its_slide n m :
  n <> m -> fallback_narration n <> fallback_narration m.
Proof.
  intros Hne H. apply Hne. unfold fallback_narration in H.
  apply app_inv_head in H. apply app_inv_tail in H.
  now apply string_of_nat_inj.
Qed.

Lemma fallback_names_its_slide_witness :
  9 <> 10 /\ fallback_narration 9 <> fallback_narration 10.
Proof.
  split; [lia |]. apply (@fallback_names_its_slide 9 10). lia.
Defined.

